(** * Tag aggregation of the part-of-speech tagging project

    A shallow embedding of [src/pos_tagger.py]: the statistics pass
    [get_pos_statistics], the phrase extraction [extract_phrases] and the
    structure summary [analyze_sentence_structure] of [AdvancedPOSTagger],
    together with the properties the specification states about them.

    Conventions of the embedding.
    - A Python call either returns a value or raises: [result A].
    - A Python [dict] is an insertion-ordered association list with unique
      keys ([PyDict]): assignment to a present key keeps its position,
      assignment to a fresh key appends.
    - Python [int]s that only count are [nat]; Python [float]s are exact
      rationals ([Qc]), so rounding is not modelled.
    - The spaCy pipeline [self.nlp] is a parameter of the tagger: a function
      from the text to a [Doc], i.e. a token sequence plus the noun chunks
      reported for it. *)

From Stdlib Require Import List String Bool Arith Lia ZArith QArith Qcanon Sorted.
Import ListNotations.
Open Scope string_scope.
Open Scope list_scope.
Open Scope nat_scope.

Set Implicit Arguments.

(** ** Results of Python calls *)

Inductive exn : Type :=
| IndexError
| ZeroDivisionError.

Inductive result (A : Type) : Type :=
| Ok (a : A)
| Raise (e : exn).

Arguments Ok {A} a.
Arguments Raise {A} e.

Definition bind {A B : Type} (r : result A) (k : A -> result B) : result B :=
  match r with
  | Ok a => k a
  | Raise e => Raise e
  end.

Notation "x <- r ;; k" := (bind r (fun x => k))
  (at level 61, r at next level, right associativity).

Definition is_ok {A : Type} (r : result A) : bool :=
  match r with Ok _ => true | Raise _ => false end.

(** A loop whose body may raise: the first exception aborts it. *)
Fixpoint mapM {A B : Type} (f : A -> result B) (l : list A) : result (list B) :=
  match l with
  | [] => Ok []
  | a :: l' => b <- f a ;; bs <- mapM f l' ;; Ok (b :: bs)
  end.

(** [l[i]] on a Python sequence. *)
Definition py_index {A : Type} (l : list A) (i : nat) : result A :=
  match nth_error l i with
  | Some a => Ok a
  | None => Raise IndexError
  end.

(** [enumerate(l, start)]: every element with its position. *)
Fixpoint enumerate_from {A : Type} (start : nat) (l : list A) : list (nat * A) :=
  match l with
  | [] => []
  | a :: l' => (start, a) :: enumerate_from (S start) l'
  end.

Definition enumerate {A : Type} (l : list A) : list (nat * A) :=
  enumerate_from 0 l.

(** ** Numbers *)

Definition Qc_of_nat (n : nat) : Qc := Q2Qc (inject_Z (Z.of_nat n)).

(** [a / b] on two Python ints (true division). *)
Definition py_truediv (a b : nat) : result Qc :=
  if b =? 0 then Raise ZeroDivisionError
  else Ok (Qc_of_nat a / Qc_of_nat b)%Qc.

(** [sum(xs)] over floats. *)
Definition py_sum (xs : list Qc) : Qc := fold_left Qcplus xs (Q2Qc 0).

(** [x == pytest.approx(target, abs=tol)]. *)
Definition approx_abs (x target tol : Qc) : Prop :=
  (target - tol <= x)%Qc /\ (x <= target + tol)%Qc.

(** ** Python dictionaries keyed by strings *)

Module PyDict.
Section Dict.
Variable V : Type.

Definition dict := list (string * V).

Definition empty : dict := [].

(** [d.get(k)] *)
Fixpoint get (d : dict) (k : string) : option V :=
  match d with
  | [] => None
  | (k', v) :: d' => if String.eqb k' k then Some v else get d' k
  end.

(** [d.get(k, dflt)] *)
Definition get_default (d : dict) (k : string) (dflt : V) : V :=
  match get d k with
  | Some v => v
  | None => dflt
  end.

(** [d[k] = v] *)
Fixpoint set (d : dict) (k : string) (v : V) : dict :=
  match d with
  | [] => [(k, v)]
  | (k', v') :: d' =>
      if String.eqb k' k then (k', v) :: d' else (k', v') :: set d' k v
  end.

(** [d.items()], [d.keys()], [d.values()], [len(d)] *)
Definition items (d : dict) : list (string * V) := d.
Definition keys (d : dict) : list string := map fst d.
Definition values (d : dict) : list V := map snd d.
Definition len (d : dict) : nat := List.length d.

(** [{k: v for k, v in kvs}] *)
Definition of_items (kvs : list (string * V)) : dict :=
  fold_left (fun d kv => set d (fst kv) (snd kv)) kvs empty.
End Dict.
Arguments empty {V}.
End PyDict.

(** ** What the spaCy collaborator hands over *)

(** A token of a parsed document.  [head] is the position, in the document,
    of the syntactic head; spaCy stores a sentence root as its own head.
    [prob] is the token's [prob] attribute when it has one. *)
Module Token.
Record t : Type := mk {
  text : string;
  pos_ : string;
  tag_ : string;
  lemma_ : string;
  dep_ : string;
  head : nat;
  is_punct : bool;
  is_space : bool;
  is_stop : bool;
  prob : option Qc
}.
End Token.

(** A base noun phrase as reported by [doc.noun_chunks]. *)
Module Span.
Record t : Type := mk {
  text : string;
  root : Token.t;
  start : nat;
  end_ : nat
}.
End Span.

Module Doc.
Record t : Type := mk {
  tokens : list Token.t;
  noun_chunks : list Span.t
}.

(** [len(doc)] and the truth value of [doc] in a condition. *)
Definition len (doc : t) : nat := List.length (tokens doc).
Definition truthy (doc : t) : bool := negb (len doc =? 0).

(** [doc[i]] *)
Definition index (doc : t) (i : nat) : result Token.t :=
  py_index (tokens doc) i.

(** [doc[i].children]: the tokens whose head is token [i], the token
    itself excluded, left children first and then right children, that is
    in document order. *)
Definition children (doc : t) (i : nat) : list Token.t :=
  map snd
    (filter (fun jt => (Token.head (snd jt) =? i) && negb (fst jt =? i))
            (enumerate (tokens doc))).

(** A noun chunk is a non-empty span of the document. *)
Definition chunk_in_range (doc : t) (chunk : Span.t) : Prop :=
  Span.start chunk < Span.end_ chunk /\ Span.end_ chunk <= len doc.
End Doc.

(** The truth value of a token in a condition is that of its length in
    characters ([Token.__len__]). *)
Definition token_truthy (token : Token.t) : bool :=
  negb (String.length (Token.text token) =? 0).

(** ** Records of the tagger *)

(** The [POSTag] dataclass. *)
Record POSTag : Type := mkPOSTag {
  word : string;
  pos : string;
  tag : string;
  lemma : string;
  is_punct : bool;
  is_space : bool;
  is_stop : bool;
  dep : string;
  confidence : option Qc;
  explanation : option string
}.

(** The dictionary returned by [get_pos_statistics]. *)
Record POSStatistics : Type := mkPOSStatistics {
  total_words : nat;
  pos_counts : PyDict.dict nat;
  pos_percentages : PyDict.dict Qc;
  unique_pos_tags : nat
}.

(** An entry of the list returned by [extract_phrases]. *)
Module Phrase.
Record t : Type := mk {
  text : string;
  type : string;
  root : string;
  start : nat;
  end_ : nat
}.
End Phrase.

(** An entry of ["dependencies"]. *)
Module Dependency.
Record t : Type := mk {
  word : string;
  dep : string;
  head : string;
  pos : string
}.
End Dependency.

(** The dictionary returned by [analyze_sentence_structure]. *)
Record SentenceStructure : Type := mkSentenceStructure {
  root : option string;
  root_pos : option string;
  dependencies : list Dependency.t;
  sentence_length : nat
}.

(** ** The tagger *)

Section AdvancedPOSTagger.

(** [self.nlp], loaded by the constructor, and [spacy.explain]. *)
Variable nlp : string -> Doc.t.
Variable explain : string -> option string.

(** [getattr(token, 'prob', 0.8)] *)
Definition default_confidence : Qc := Q2Qc (8 # 10).

Definition tag_text (text : string) (include_confidence : bool) : list POSTag :=
  let doc := nlp text in
  map (fun token =>
         let confidence :=
           if include_confidence
           then Some match Token.prob token with
                     | Some p => p
                     | None => default_confidence
                     end
           else None in
         {| word := Token.text token;
            pos := Token.pos_ token;
            tag := Token.tag_ token;
            lemma := Token.lemma_ token;
            is_punct := Token.is_punct token;
            is_space := Token.is_space token;
            is_stop := Token.is_stop token;
            dep := Token.dep_ token;
            confidence := confidence;
            explanation := explain (Token.pos_ token) |})
      (Doc.tokens doc).

(** One iteration of the counting loop over [(pos_counts, total_words)]. *)
Definition count_tag (st : PyDict.dict nat * nat) (tag : POSTag)
  : PyDict.dict nat * nat :=
  let (pos_counts, total_words) := st in
  if negb (is_space tag) && negb (is_punct tag)
  then (PyDict.set pos_counts (pos tag)
          (PyDict.get_default pos_counts (pos tag) 0 + 1),
        total_words + 1)
  else (pos_counts, total_words).

Definition percentage (total_words : nat) (item : string * nat)
  : result (string * Qc) :=
  let (pos, count) := item in
  q <- py_truediv count total_words ;;
  Ok (pos, (q * Qc_of_nat 100)%Qc).

Definition get_pos_statistics (tags : list POSTag) : result POSStatistics :=
  let (pos_counts, total_words) :=
    fold_left count_tag tags (PyDict.empty, 0) in
  percentages <- mapM (percentage total_words) (PyDict.items pos_counts) ;;
  let pos_percentages := PyDict.of_items percentages in
  Ok {| total_words := total_words;
        pos_counts := pos_counts;
        pos_percentages := pos_percentages;
        unique_pos_tags := PyDict.len pos_counts |}.

Definition noun_phrase (chunk : Span.t) : Phrase.t :=
  {| Phrase.text := Span.text chunk;
     Phrase.type := "noun_phrase";
     Phrase.root := Token.text (Span.root chunk);
     Phrase.start := Span.start chunk;
     Phrase.end_ := Span.end_ chunk |}.

Definition is_aux (child : Token.t) : bool :=
  String.eqb (Token.dep_ child) "aux" || String.eqb (Token.dep_ child) "auxpass".

(** The phrase appended for the token [token] at position [i]. *)
Definition verb_phrase (doc : Doc.t) (i : nat) (token : Token.t) : Phrase.t :=
  let verb_phrase :=
    map Token.text (filter is_aux (Doc.children doc i)) ++ [Token.text token] in
  {| Phrase.text := String.concat " " verb_phrase;
     Phrase.type := "verb_phrase";
     Phrase.root := Token.text token;
     Phrase.start := i;
     Phrase.end_ := i + 1 |}.

Definition is_verb (it : nat * Token.t) : bool :=
  String.eqb (Token.pos_ (snd it)) "VERB".

Definition extract_phrases (text : string) : result (list Phrase.t) :=
  let doc := nlp text in
  let phrases := map noun_phrase (Doc.noun_chunks doc) in
  let phrases :=
    phrases ++
    map (fun it => verb_phrase doc (fst it) (snd it))
        (filter is_verb (enumerate (Doc.tokens doc))) in
  Ok phrases.

Definition is_root (token : Token.t) : bool := String.eqb (Token.dep_ token) "ROOT".

Definition dependency (doc : Doc.t) (token : Token.t) : result Dependency.t :=
  h <- Doc.index doc (Token.head token) ;;
  Ok {| Dependency.word := Token.text token;
        Dependency.dep := Token.dep_ token;
        Dependency.head := Token.text h;
        Dependency.pos := Token.pos_ token |}.

Definition analyze_sentence_structure (text : string) : result SentenceStructure :=
  let doc := nlp text in
  root <- (if Doc.truthy doc
           then r <- py_index (filter is_root (Doc.tokens doc)) 0 ;; Ok (Some r)
           else Ok None) ;;
  dependencies <- mapM (dependency doc) (Doc.tokens doc) ;;
  let present :=
    match root with
    | Some r => if token_truthy r then Some r else None
    | None => None
    end in
  Ok {| root := option_map Token.text present;
        root_pos := option_map Token.pos_ present;
        dependencies := dependencies;
        sentence_length := Doc.len doc |}.

End AdvancedPOSTagger.

(** ** What the specification speaks about *)

(** A tag is a word when it is flagged neither whitespace nor punctuation. *)
Definition eligible (tag : POSTag) : bool :=
  negb (is_space tag) && negb (is_punct tag).

Definition eligible_words (tags : list POSTag) : list POSTag :=
  filter eligible tags.

(** The number of words of the category [p]. *)
Definition count_pos (p : string) (tags : list POSTag) : nat :=
  List.length (filter (fun tag => String.eqb (pos tag) p) (eligible_words tags)).

Definition is_noun_phrase (ph : Phrase.t) : bool :=
  String.eqb (Phrase.type ph) "noun_phrase".

Definition is_verb_phrase (ph : Phrase.t) : bool :=
  String.eqb (Phrase.type ph) "verb_phrase".

(** The positions of the tokens tagged VERB, left to right. *)
Definition verb_positions (doc : Doc.t) : list nat :=
  map fst (filter is_verb (enumerate (Doc.tokens doc))).

(** The auxiliaries of the token at position [i], as the specification
    words them: the tokens at a position [j <> i] whose head is [i] and whose
    dependency label is aux or auxpass, by increasing position. *)
Definition auxiliaries (doc : Doc.t) (i : nat) : list Token.t :=
  flat_map
    (fun j =>
       match nth_error (Doc.tokens doc) j with
       | Some child =>
           if (Token.head child =? i) && negb (j =? i) && is_aux child
           then [child] else []
       | None => []
       end)
    (seq 0 (Doc.len doc)).

Definition has_root (doc : Doc.t) : bool := existsb is_root (Doc.tokens doc).

Definition heads_in_range (doc : Doc.t) : bool :=
  forallb (fun token => Token.head token <? Doc.len doc) (Doc.tokens doc).

(** What a dependency parse guarantees: a non-empty sequence has a token
    labelled ROOT, and every head is a token of the sequence. *)
Definition parsed (doc : Doc.t) : bool :=
  (negb (Doc.truthy doc) || has_root doc) && heads_in_range doc.


(** ** The state of the counting loop *)

Definition sum_counts (d : PyDict.dict nat) : nat := list_sum (PyDict.values d).

(** The state of the loop after the tags [seen]. *)
Record counted (seen : list POSTag) (d : PyDict.dict nat) (n : nat) : Prop := {
  counted_keys : NoDup (PyDict.keys d);
  counted_total : n = List.length (eligible_words seen);
  counted_get : forall p,
    PyDict.get d p =
    if count_pos p seen =? 0 then None else Some (count_pos p seen);
  counted_sum : sum_counts d = n
}.

(** The share of [count] words among [total], in percent. *)
Definition share (total count : nat) : Qc :=
  (Qc_of_nat count / Qc_of_nat total * Qc_of_nat 100)%Qc.

Definition percentages_of (total : nat) (d : PyDict.dict nat) : PyDict.dict Qc :=
  map (fun kc => (fst kc, share total (snd kc))) d.

(** ** Sample inputs *)

Module Samples.
Definition tok (text pos_ dep_ : string) (head : nat) (is_punct is_space : bool)
  : Token.t :=
  Token.mk text pos_ "" text dep_ head is_punct is_space false None.

Definition plain (word pos : string) : POSTag :=
  mkPOSTag word pos "" word false false false "" None None.

Definition no_explain (_ : string) : option string := None.

(** "The quick fox jumps" *)
Definition the_quick_fox_jumps : list POSTag :=
  [plain "The" "DET"; plain "quick" "ADJ"; plain "fox" "NOUN"; plain "jumps" "VERB"].

(** "is running", [is] attached to [running] as its auxiliary. *)
Definition is_running : Doc.t :=
  Doc.mk [tok "is" "AUX" "aux" 1 false false;
          tok "running" "VERB" "ROOT" 1 false false] [].

(** "He has been seen, he left": two verbs, the first with two auxiliaries,
    and two noun chunks. *)
Definition he_has_been_seen : Doc.t :=
  let he := tok "He" "PRON" "nsubjpass" 3 false false in
  let he2 := tok "he" "PRON" "nsubj" 6 false false in
  Doc.mk [he;
          tok "has" "AUX" "aux" 3 false false;
          tok "been" "AUX" "auxpass" 3 false false;
          tok "seen" "VERB" "ROOT" 3 false false;
          tok "," "PUNCT" "punct" 3 true false;
          he2;
          tok "left" "VERB" "conj" 3 false false]
         [Span.mk "He" he 0 1; Span.mk "he" he2 5 6].

(** "Hello , world": no verb, one noun chunk, one punctuation token. *)
Definition hello_world : Doc.t :=
  let world := tok "world" "NOUN" "ROOT" 2 false false in
  Doc.mk [tok "Hello" "INTJ" "intj" 2 false false;
          tok "," "PUNCT" "punct" 2 true false;
          world]
         [Span.mk "world" world 2 3].



Definition empty_doc : Doc.t := Doc.mk [] [].
End Samples.

(** * The rest of the tagger, its siblings and its callers *)

From Stdlib Require Import Permutation.

(** ** Notions the further properties speak about *)

(** The distinct elements of a list, in the order of their first
    occurrence. *)
Fixpoint first_seen (l : list string) : list string :=
  match l with
  | [] => []
  | x :: l' => x :: filter (fun y => negb (String.eqb y x)) (first_seen l')
  end.

(** What the statistics read of a tag. *)
Definition stat_view (tag : POSTag) : string * bool * bool :=
  (pos tag, is_space tag, is_punct tag).

Definition is_VERB (token : Token.t) : bool :=
  String.eqb (Token.pos_ token) "VERB".

(** ** Exceptions and outcomes outside the aggregation *)

(** The aggregation raises [IndexError] and [ZeroDivisionError] only; the
    code around it meets a few more exceptions. *)
Inductive raised : Type :=
| Builtin (e : exn)
| KeyError (key : string)
| ValueError
| TypeError
| OSError.

Inductive outcome (A : Type) : Type :=
| Returns (a : A)
| Throws (e : raised).

Arguments Returns {A} a.
Arguments Throws {A} e.

Definition and_then {A B : Type} (o : outcome A) (k : A -> outcome B) : outcome B :=
  match o with
  | Returns a => k a
  | Throws e => Throws e
  end.

(** A call of the aggregation seen from its callers. *)
Definition calling {A : Type} (r : result A) : outcome A :=
  match r with
  | Ok a => Returns a
  | Raise e => Throws (Builtin e)
  end.

(** ** Loading the pipeline ([AdvancedPOSTagger.__init__], [_load_model]) *)

(** A loaded spaCy pipeline: what [self.nlp] is called with and returns. *)
Definition Language : Type := string -> Doc.t.

(** The fields of an [AdvancedPOSTagger] that change: [self.language] and
    [self.nlp] ([None] before the first load). *)
Module Tagger.
Record t : Type := mk {
  language : string;
  nlp : option Language
}.
End Tagger.

Definition supported_languages : PyDict.dict string :=
  [("en", "en_core_web_sm");
   ("es", "es_core_news_sm");
   ("fr", "fr_core_news_sm");
   ("de", "de_core_news_sm");
   ("it", "it_core_news_sm");
   ("pt", "pt_core_news_sm");
   ("nl", "nl_core_news_sm");
   ("ru", "ru_core_news_sm");
   ("zh", "zh_core_web_sm");
   ("ja", "ja_core_news_sm")].

Section Loading.

(** [spacy.load]: the pipeline of that name, or the exception it raises
    ([OSError] when the model is not installed). *)
Variable spacy_load : string -> outcome Language.

(** [self._load_model()].  The result is the tagger after the call; when the
    call raises, neither field has been assigned. *)
Definition _load_model (self : Tagger.t) : outcome Tagger.t :=
  let model_name :=
    PyDict.get_default supported_languages (Tagger.language self) "en_core_web_sm" in
  match spacy_load model_name with
  | Returns nlp =>
      Returns {| Tagger.language := Tagger.language self; Tagger.nlp := Some nlp |}
  | Throws OSError =>
      and_then (spacy_load "en_core_web_sm") (fun nlp =>
        Returns {| Tagger.language := "en"; Tagger.nlp := Some nlp |})
  | Throws e => Throws e
  end.

(** [AdvancedPOSTagger(language)] *)
Definition __init__ (language : string) : outcome Tagger.t :=
  _load_model {| Tagger.language := language; Tagger.nlp := None |}.

End Loading.

(** [self.tag_text(text, include_confidence)] on a tagger object, with its
    guard on [self.nlp]. *)
Definition tag_text_method (self : Tagger.t) (explain : string -> option string)
  (text : string) (include_confidence : bool) : outcome (list POSTag) :=
  match Tagger.nlp self with
  | None => Throws ValueError
  | Some nlp => Returns (tag_text nlp explain text include_confidence)
  end.

(** [self.extract_phrases(text)] and [self.analyze_sentence_structure(text)]
    on a tagger object: they call [self.nlp], which [None] does not allow. *)
Definition extract_phrases_method (self : Tagger.t) (text : string)
  : outcome (list Phrase.t) :=
  match Tagger.nlp self with
  | None => Throws TypeError
  | Some nlp => calling (extract_phrases nlp text)
  end.

Definition analyze_sentence_structure_method (self : Tagger.t) (text : string)
  : outcome SentenceStructure :=
  match Tagger.nlp self with
  | None => Throws TypeError
  | Some nlp => calling (analyze_sentence_structure nlp text)
  end.

(** ** The first implementation ([src/0106.py]) *)

Definition model_map : PyDict.dict string :=
  [("en", "en_core_web_sm");
   ("es", "es_core_news_sm");
   ("fr", "fr_core_news_sm");
   ("de", "de_core_news_sm")].

(** The dictionary built for each token. *)
Module TagInfo.
Record t : Type := mk {
  word : string;
  pos : string;
  tag : string;
  lemma : string;
  is_punct : bool;
  is_space : bool;
  is_stop : bool;
  dep : string;
  explanation : option string
}.
End TagInfo.

(** What [enhanced_pos_tagging] returns: the results, or [{"error": ...}]. *)
Inductive enhanced : Type :=
| Enhanced (text language : string) (tags : list TagInfo.t) (statistics : POSStatistics)
| EnhancedError (e : raised).

Section Enhanced.

Variable spacy_load : string -> outcome Language.
Variable explain : string -> option string.

(** The inner [try]: the model of the language, else the English one. *)
Definition enhanced_load (language : string) : outcome Language :=
  let model_name := PyDict.get_default model_map language "en_core_web_sm" in
  match spacy_load model_name with
  | Returns nlp => Returns nlp
  | Throws OSError => spacy_load "en_core_web_sm"
  | Throws e => Throws e
  end.

(** One iteration of the loop over [(tags, pos_counts)]. *)
Definition enhanced_token (st : list TagInfo.t * PyDict.dict nat) (token : Token.t)
  : list TagInfo.t * PyDict.dict nat :=
  let (tags, pos_counts) := st in
  let tag_info :=
    {| TagInfo.word := Token.text token;
       TagInfo.pos := Token.pos_ token;
       TagInfo.tag := Token.tag_ token;
       TagInfo.lemma := Token.lemma_ token;
       TagInfo.is_punct := Token.is_punct token;
       TagInfo.is_space := Token.is_space token;
       TagInfo.is_stop := Token.is_stop token;
       TagInfo.dep := Token.dep_ token;
       TagInfo.explanation := explain (Token.pos_ token) |} in
  let tags := tags ++ [tag_info] in
  if negb (Token.is_space token) && negb (Token.is_punct token)
  then (tags,
        PyDict.set pos_counts (Token.pos_ token)
          (PyDict.get_default pos_counts (Token.pos_ token) 0 + 1))
  else (tags, pos_counts).

Definition enhanced_pos_tagging (text language : string) : enhanced :=
  let body :=
    and_then (enhanced_load language) (fun nlp =>
      let doc := nlp text in
      let (tags, pos_counts) :=
        fold_left enhanced_token (Doc.tokens doc) ([], PyDict.empty) in
      let total_words := list_sum (PyDict.values pos_counts) in
      and_then (calling (mapM (percentage total_words) (PyDict.items pos_counts)))
        (fun percentages =>
           Returns (Enhanced text language tags
                      {| total_words := total_words;
                         pos_counts := pos_counts;
                         pos_percentages := PyDict.of_items percentages;
                         unique_pos_tags := PyDict.len pos_counts |}))) in
  match body with
  | Returns r => r
  | Throws e => EnhancedError e
  end.

End Enhanced.

(** ** Installations used as examples *)

Module Installed.
(** Only the English model is installed; it parses every text as
    "Hello , world". *)
Definition english : Language := fun _ => Samples.hello_world.

Definition only_english (name : string) : outcome Language :=
  if String.eqb name "en_core_web_sm" then Returns english else Throws OSError.

(** No model at all. *)
Definition nothing (name : string) : outcome Language := Throws OSError.
End Installed.

(** ** The charts ([src/utils/visualizer.py]) *)

(** Of a figure the model keeps the data that depend on the tags; titles,
    sizes and colours are constants of the source.  Writing the figure to
    [save_path] comes after the figure is built and is left out. *)

(** One iteration of the loop that counts the categories for a chart. *)
Definition chart_count (pos_counts : PyDict.dict nat) (tag : POSTag)
  : PyDict.dict nat :=
  if negb (is_space tag) && negb (is_punct tag)
  then PyDict.set pos_counts (pos tag) (PyDict.get_default pos_counts (pos tag) 0 + 1)
  else pos_counts.

Module Pie.
Record t : Type := mk {
  labels : list string;
  values : list nat
}.
End Pie.

Definition create_pos_distribution_chart (tags : list POSTag) : Pie.t :=
  let pos_counts := fold_left chart_count tags PyDict.empty in
  {| Pie.labels := PyDict.keys pos_counts;
     Pie.values := PyDict.values pos_counts |}.

(** [sorted(items, key=lambda x: x[1], reverse=True)]: by decreasing count,
    items of equal count in their original order (the sort is stable, also
    when reversed).  A stable sort has one possible result; it is computed
    here by insertion, each item going before the first one that does not
    outweigh it. *)
Fixpoint insert_by_count (x : string * nat) (l : list (string * nat))
  : list (string * nat) :=
  match l with
  | [] => [x]
  | y :: l' => if snd y <=? snd x then x :: y :: l' else y :: insert_by_count x l'
  end.

Definition sorted_by_count (items : list (string * nat)) : list (string * nat) :=
  fold_right insert_by_count [] items.

(** The order of the sorted items: no later item outweighs an earlier one. *)
Definition by_count_desc (a b : string * nat) : Prop := snd b <= snd a.

Module Bar.
Record t : Type := mk {
  x : list string;
  y : list nat
}.
End Bar.

Definition create_pos_bar_chart (tags : list POSTag) : Bar.t :=
  let pos_counts := fold_left chart_count tags PyDict.empty in
  let sorted_pos := sorted_by_count (PyDict.items pos_counts) in
  {| Bar.x := map fst sorted_pos;
     Bar.y := map snd sorted_pos |}.

(** The truth value of [tag.confidence]: [None] and [0.0] are false. *)
Definition confidence_truthy (tag : POSTag) : option Qc :=
  match confidence tag with
  | Some c => if Qc_eq_bool c (Q2Qc 0) then None else Some c
  | None => None
  end.

(** [d[k].append(v)], after [if k not in d: d[k] = []]. *)
Definition append_at {V : Type} (d : PyDict.dict (list V)) (k : string) (v : V)
  : PyDict.dict (list V) :=
  let d :=
    match PyDict.get d k with
    | None => PyDict.set d k []
    | Some _ => d
    end in
  PyDict.set d k (PyDict.get_default d k [] ++ [v]).

(** One iteration of the loop that groups the confidence scores. *)
Definition collect_confidence (pos_confidences : PyDict.dict (list Qc)) (tag : POSTag)
  : PyDict.dict (list Qc) :=
  if negb (is_space tag) && negb (is_punct tag)
  then match confidence_truthy tag with
       | Some c => append_at pos_confidences (pos tag) c
       | None => pos_confidences
       end
  else pos_confidences.

(** [x / n] on a float and an int. *)
Definition py_fdiv (x : Qc) (n : nat) : result Qc :=
  if n =? 0 then Raise ZeroDivisionError else Ok (x / Qc_of_nat n)%Qc.

Definition average (item : string * list Qc) : result (string * Qc) :=
  let (pos, confidences) := item in
  q <- py_fdiv (py_sum confidences) (List.length confidences) ;;
  Ok (pos, q).

Module Heatmap.
Record t : Type := mk {
  x : list string;
  z : list Qc
}.
End Heatmap.

Definition create_confidence_heatmap (tags : list POSTag) : result Heatmap.t :=
  let pos_confidences := fold_left collect_confidence tags PyDict.empty in
  averages <- mapM average (PyDict.items pos_confidences) ;;
  let avg_confidences := PyDict.of_items averages in
  Ok {| Heatmap.x := PyDict.keys avg_confidences;
        Heatmap.z := PyDict.values avg_confidences |}.

(** A node of the dependency tree: a dictionary with the keys [id], [label]
    and [pos], and no other. *)
Module Node.
Record t : Type := mk {
  id : nat;
  label : string;
  pos : string
}.

(** [node[key]] for a coordinate: the dictionary has no such key. *)
Definition coordinate (node : t) (key : string) : outcome Qc :=
  Throws (KeyError key).
End Node.

Definition newline : string := String (Ascii.ascii_of_nat 10) EmptyString.

(** One iteration of the loop over [enumerate(tags)] that builds
    [(nodes, edges)]. *)
Definition tree_step (st : list Node.t * list (nat * nat)) (it : nat * POSTag)
  : list Node.t * list (nat * nat) :=
  let (nodes, edges) := st in
  let (i, tag) := it in
  if negb (is_space tag)
  then
    let nodes :=
      nodes ++ [{| Node.id := i;
                   Node.label := word tag ++ newline ++ "(" ++ pos tag ++ ")";
                   Node.pos := pos tag |}] in
    if negb (String.eqb (dep tag) "ROOT")
    then let head_idx := Nat.max 0 (i - 1) in (nodes, edges ++ [(head_idx, i)])
    else (nodes, edges)
  else (nodes, edges).

(** A [go.Scatter] trace: its [x] and [y]. *)
Module Scatter.
Record t : Type := mk {
  x : list Qc;
  y : list Qc
}.
End Scatter.

(** A loop over outcomes: the first exception aborts it. *)
Fixpoint each {A B : Type} (f : A -> outcome B) (l : list A) : outcome (list B) :=
  match l with
  | [] => Returns []
  | a :: l' =>
      and_then (f a) (fun b => and_then (each f l') (fun bs => Returns (b :: bs)))
  end.

Definition edge_trace (nodes : list Node.t) (edge : nat * nat) : outcome Scatter.t :=
  and_then (calling (py_index nodes (fst edge))) (fun n0 =>
  and_then (Node.coordinate n0 "x") (fun x0 =>
  and_then (calling (py_index nodes (snd edge))) (fun n1 =>
  and_then (Node.coordinate n1 "x") (fun x1 =>
  and_then (calling (py_index nodes (fst edge))) (fun n2 =>
  and_then (Node.coordinate n2 "y") (fun y0 =>
  and_then (calling (py_index nodes (snd edge))) (fun n3 =>
  and_then (Node.coordinate n3 "y") (fun y1 =>
  Returns {| Scatter.x := [x0; x1]; Scatter.y := [y0; y1] |})))))))).

Definition node_trace (node : Node.t) : outcome Scatter.t :=
  and_then (Node.coordinate node "x") (fun x =>
  and_then (Node.coordinate node "y") (fun y =>
  Returns {| Scatter.x := [x]; Scatter.y := [y] |})).

(** The traces of the figure returned by [create_dependency_tree]. *)
Definition create_dependency_tree (tags : list POSTag) : outcome (list Scatter.t) :=
  let (nodes, edges) := fold_left tree_step (enumerate tags) ([], []) in
  and_then (each (edge_trace nodes) edges) (fun edge_traces =>
  and_then (each node_trace nodes) (fun node_traces =>
  Returns (edge_traces ++ node_traces))).

(** One iteration of the loop of [export_visualization_data] over
    [(pos_counts, pos_confidences, word_lengths, total_words,
      total_confidence, confidence_count)]. *)
Module VizData.
Record state : Type := mk_state {
  s_pos_counts : PyDict.dict nat;
  s_pos_confidences : PyDict.dict (list Qc);
  s_word_lengths : PyDict.dict (list nat);
  s_total_words : nat;
  s_total_confidence : Qc;
  s_confidence_count : nat
}.

Record statistics : Type := mk_statistics {
  total_words : nat;
  unique_pos_tags : nat;
  average_confidence : Qc
}.

(** The dictionary dumped to the file. *)
Record t : Type := mk {
  pos_counts : PyDict.dict nat;
  pos_confidences : PyDict.dict (list Qc);
  word_lengths : PyDict.dict (list nat);
  stats : statistics
}.
End VizData.

Definition export_step (st : VizData.state) (tag : POSTag) : VizData.state :=
  if negb (is_space tag) && negb (is_punct tag)
  then
    let pos_counts :=
      PyDict.set (VizData.s_pos_counts st) (pos tag)
        (PyDict.get_default (VizData.s_pos_counts st) (pos tag) 0 + 1) in
    let total_words := VizData.s_total_words st + 1 in
    let '(pos_confidences, total_confidence, confidence_count) :=
      match confidence_truthy tag with
      | Some c =>
          (append_at (VizData.s_pos_confidences st) (pos tag) c,
           (VizData.s_total_confidence st + c)%Qc,
           VizData.s_confidence_count st + 1)
      | None =>
          (VizData.s_pos_confidences st,
           VizData.s_total_confidence st,
           VizData.s_confidence_count st)
      end in
    let word_lengths :=
      append_at (VizData.s_word_lengths st) (pos tag) (String.length (word tag)) in
    VizData.mk_state pos_counts pos_confidences word_lengths
      total_words total_confidence confidence_count
  else st.

(** The dictionary [export_visualization_data] writes as JSON. *)
Definition export_visualization_data (tags : list POSTag) : VizData.t :=
  let st :=
    fold_left export_step tags
      (VizData.mk_state PyDict.empty PyDict.empty PyDict.empty 0 (Q2Qc 0) 0) in
  {| VizData.pos_counts := VizData.s_pos_counts st;
     VizData.pos_confidences := VizData.s_pos_confidences st;
     VizData.word_lengths := VizData.s_word_lengths st;
     VizData.stats :=
       {| VizData.total_words := VizData.s_total_words st;
          VizData.unique_pos_tags := PyDict.len (VizData.s_pos_counts st);
          VizData.average_confidence :=
            if 0 <? VizData.s_confidence_count st
            then (VizData.s_total_confidence st / Qc_of_nat (VizData.s_confidence_count st))%Qc
            else Q2Qc 0 |} |}.

(** A tag that the confidence heatmap takes into account. *)
Definition scored (tag : POSTag) : bool :=
  negb (is_space tag) && negb (is_punct tag) &&
  match confidence_truthy tag with Some _ => true | None => false end.


(** ** The sample database ([src/data/mock_database.py]) *)

Module SampleText.
Record t : Type := mk {
  id : string;
  title : string;
  text : string;
  domain : string;
  language : string;
  difficulty : string;
  description : string
}.
End SampleText.

(** The dictionary every accessor builds for a sample. *)
Definition sample_dict (sample : SampleText.t) : PyDict.dict string :=
  [("id", SampleText.id sample);
   ("title", SampleText.title sample);
   ("text", SampleText.text sample);
   ("domain", SampleText.domain sample);
   ("language", SampleText.language sample);
   ("difficulty", SampleText.difficulty sample);
   ("description", SampleText.description sample)].

(** [needle in haystack] on two strings. *)
Fixpoint contains (needle haystack : string) : bool :=
  String.prefix needle haystack ||
  match haystack with
  | EmptyString => false
  | String _ rest => contains needle rest
  end.

(** [d[key]] *)
Definition getitem {V : Type} (d : PyDict.dict V) (key : string) : outcome V :=
  match PyDict.get d key with
  | Some v => Returns v
  | None => Throws (KeyError key)
  end.

(** The accessors take [self.samples] as their first argument. *)

Definition get_all_samples (samples : list SampleText.t) : list (PyDict.dict string) :=
  map sample_dict samples.

Definition get_samples_by_domain (samples : list SampleText.t) (domain : string)
  : list (PyDict.dict string) :=
  map sample_dict
      (filter (fun sample => String.eqb (SampleText.domain sample) domain) samples).

Definition get_samples_by_language (samples : list SampleText.t) (language : string)
  : list (PyDict.dict string) :=
  map sample_dict
      (filter (fun sample => String.eqb (SampleText.language sample) language) samples).

Fixpoint get_sample_by_id (samples : list SampleText.t) (sample_id : string)
  : option (PyDict.dict string) :=
  match samples with
  | [] => None
  | sample :: rest =>
      if String.eqb (SampleText.id sample) sample_id
      then Some (sample_dict sample)
      else get_sample_by_id rest sample_id
  end.

Section Search.

(** [str.lower] *)
Variable lower : string -> string.

Definition matches (query_lower : string) (sample : SampleText.t) : bool :=
  contains query_lower (lower (SampleText.title sample)) ||
  contains query_lower (lower (SampleText.description sample)) ||
  contains query_lower (lower (SampleText.text sample)).

Definition search_samples (samples : list SampleText.t) (query : string)
  : list (PyDict.dict string) :=
  let query_lower := lower query in
  map sample_dict (filter (matches query_lower) samples).

End Search.

(** The ["samples"] entry of the data [save_to_file] dumps. *)
Definition saved_samples (samples : list SampleText.t) : list (PyDict.dict string) :=
  get_all_samples samples.

(** One [SampleText(...)] of [load_from_file]: the seven entries are looked
    up in this order. *)
Definition sample_of_dict (sample : PyDict.dict string) : outcome SampleText.t :=
  and_then (getitem sample "id") (fun id =>
  and_then (getitem sample "title") (fun title =>
  and_then (getitem sample "text") (fun text =>
  and_then (getitem sample "domain") (fun domain =>
  and_then (getitem sample "language") (fun language =>
  and_then (getitem sample "difficulty") (fun difficulty =>
  and_then (getitem sample "description") (fun description =>
  Returns (SampleText.mk id title text domain language difficulty description)))))))).

(** The samples [load_from_file] installs, given the ["samples"] entry of
    the file. *)
Definition loaded_samples (file_samples : list (PyDict.dict string))
  : outcome (list SampleText.t) :=
  each sample_of_dict file_samples.

(** ** The sample routes of the web application ([src/app.py]) *)

Inductive response (A : Type) : Type :=
| Status200 (body : A)
| Status400 (error : string)
| Status404 (error : string)
| Status500 (e : raised).

Arguments Status200 {A} body.
Arguments Status400 {A} error.
Arguments Status404 {A} error.
Arguments Status500 {A} e.

(** The truth value of a query argument or of an optional string: absent
    and empty are false. *)
Definition given (arg : option string) : option string :=
  match arg with
  | Some "" => None
  | Some s => Some s
  | None => None
  end.

Module SamplesBody.
Record t : Type := mk {
  samples : list (PyDict.dict string);
  total : nat
}.
End SamplesBody.

(** The list comprehension over outcomes: keeps the elements whose test
    returns true. *)
Fixpoint keep {A : Type} (test : A -> outcome bool) (l : list A) : outcome (list A) :=
  match l with
  | [] => Returns []
  | a :: l' =>
      and_then (test a) (fun b =>
      and_then (keep test l') (fun rest =>
      Returns (if b then a :: rest else rest)))
  end.

Section SampleRoutes.

Variable samples : list SampleText.t.
Variable lower : string -> string.

(** [GET /api/samples] with its four query arguments. *)
Definition get_samples (domain language difficulty search : option string)
  : response SamplesBody.t :=
  let selected :=
    match given search with
    | Some search => search_samples lower samples search
    | None =>
        match given domain with
        | Some domain => get_samples_by_domain samples domain
        | None =>
            match given language with
            | Some language => get_samples_by_language samples language
            | None => get_all_samples samples
            end
        end
    end in
  let filtered :=
    match given difficulty with
    | Some difficulty =>
        keep (fun s => and_then (getitem s "difficulty")
                         (fun d => Returns (String.eqb d difficulty)))
             selected
    | None => Returns selected
    end in
  match filtered with
  | Returns samples =>
      Status200 {| SamplesBody.samples := samples;
                   SamplesBody.total := List.length samples |}
  | Throws e => Status500 e
  end.

(** [GET /api/samples/<sample_id>] *)
Definition get_sample (sample_id : string) : response (PyDict.dict string) :=
  match get_sample_by_id samples sample_id with
  | Some sample =>
      if 0 <? PyDict.len sample then Status200 sample
      else Status404 "Sample not found"
  | None => Status404 "Sample not found"
  end.

End SampleRoutes.

(** The first three samples of [_load_sample_texts]. *)
Module Shipped.
Definition news_001 : SampleText.t :=
  SampleText.mk "news_001" "Technology Breakthrough"
    "Scientists have developed a revolutionary artificial intelligence system that can process natural language with unprecedented accuracy. The breakthrough promises to transform how computers understand human communication."
    "news" "en" "medium" "Technology news article with technical terms".

Definition news_002 : SampleText.t :=
  SampleText.mk "news_002" "Economic Update"
    "The Federal Reserve announced today that interest rates will remain unchanged for the foreseeable future. Economists predict this decision will stabilize markets and encourage continued economic growth."
    "news" "en" "medium" "Financial news with economic terminology".

Definition lit_001 : SampleText.t :=
  SampleText.mk "lit_001" "Classic Poetry"
    "The quick brown fox jumps over the lazy dog near the riverbank. This sentence contains every letter of the alphabet and demonstrates various parts of speech beautifully."
    "literature" "en" "easy" "Famous pangram sentence".

Definition samples : list SampleText.t := [news_001; news_002; lit_001].

(** A stand-in for [str.lower] that leaves its argument as it is. *)
Definition as_is (s : string) : string := s.
End Shipped.

(** ** The tagging routes of the web application ([src/app.py]) *)

(** The routes read a JSON object.  The model covers the requests whose
    entries have the types the routes expect: texts and language codes are
    strings, the [include_...] entries are booleans; an absent entry is
    [None], or [false] for a flag, as [data.get] defaults it. *)
Module TagRequest.
Record t : Type := mk {
  text : option string;
  language : option string;
  include_stats : bool;
  include_phrases : bool;
  include_structure : bool
}.
End TagRequest.

Module TagBody.
Record t : Type := mk {
  text : string;
  language : string;
  tags : list POSTag;
  statistics : option POSStatistics;
  phrases : option (list Phrase.t);
  structure : option SentenceStructure
}.
End TagBody.

(** [if flag: response[key] = call] *)
Definition when {A : Type} (flag : bool) (call : outcome A) : outcome (option A) :=
  if flag then and_then call (fun a => Returns (Some a)) else Returns None.

(** An element of ["texts"]: a string, a dictionary (with its ["text"]
    entry, if any), or anything else. *)
Inductive text_data : Type :=
| AsString (text : string)
| AsDict (text : option string)
| AsOther.

Module BatchRequest.
Record t : Type := mk {
  texts : option (list text_data);
  language : option string;
  include_stats : bool
}.
End BatchRequest.

Module BatchResult.
Record t : Type := mk {
  text : string;
  tags : list POSTag;
  statistics : option POSStatistics
}.
End BatchResult.

Module BatchBody.
Record t : Type := mk {
  results : list BatchResult.t;
  total : nat
}.
End BatchBody.

(** The text [batch_tag] takes from an element of ["texts"]: the string
    itself, or the ["text"] entry of a dictionary that has one; [None] for an
    element that is skipped ([continue]). *)
Definition usable (text_data : text_data) : option string :=
  match text_data with
  | AsString text => Some text
  | AsDict (Some text) => Some text
  | AsDict None => None
  | AsOther => None
  end.

Section TagRoutes.

Variable spacy_load : string -> outcome Language.
Variable explain : string -> option string.

(** [if language != tagger.language: tagger.language = language;
    tagger._load_model()]: the tagger afterwards, and the exception if the
    load raised (the language is assigned by then, the pipeline is not). *)
Definition switch_language (tagger : Tagger.t) (language : string)
  : Tagger.t * option raised :=
  if String.eqb language (Tagger.language tagger) then (tagger, None)
  else
    let relabelled :=
      {| Tagger.language := language; Tagger.nlp := Tagger.nlp tagger |} in
    match _load_model spacy_load relabelled with
    | Returns loaded => (loaded, None)
    | Throws e => (relabelled, Some e)
    end.

(** [POST /api/tag]: the response, and the global tagger after the
    request. *)
Definition api_tag_text (tagger : Tagger.t) (data : option TagRequest.t)
  : response TagBody.t * Tagger.t :=
  match data with
  | None => (Status400 "Text is required", tagger)
  | Some data =>
      match TagRequest.text data with
      | None => (Status400 "Text is required", tagger)
      | Some text =>
          let language :=
            match TagRequest.language data with Some l => l | None => "en" end in
          match switch_language tagger language with
          | (tagger, Some e) => (Status500 e, tagger)
          | (tagger, None) =>
              let answer :=
                and_then (tag_text_method tagger explain text true) (fun tags =>
                and_then (when (TagRequest.include_stats data)
                            (calling (get_pos_statistics tags))) (fun statistics =>
                and_then (when (TagRequest.include_phrases data)
                            (extract_phrases_method tagger text)) (fun phrases =>
                and_then (when (TagRequest.include_structure data)
                            (analyze_sentence_structure_method tagger text))
                  (fun structure =>
                Returns (TagBody.mk text language tags statistics phrases structure))))) in
              match answer with
              | Returns body => (Status200 body, tagger)
              | Throws e => (Status500 e, tagger)
              end
          end
      end
  end.

(** The body of the loop of [batch_tag]: [None] for an element that is
    skipped. *)
Definition batch_one (tagger : Tagger.t) (include_stats : bool) (text_data : text_data)
  : outcome (option BatchResult.t) :=
  match usable text_data with
  | None => Returns None
  | Some text =>
      and_then (tag_text_method tagger explain text true) (fun tags =>
      and_then (when include_stats (calling (get_pos_statistics tags))) (fun statistics =>
      Returns (Some (BatchResult.mk text tags statistics))))
  end.

(** The elements of a list of options that are there. *)
Definition present {A : Type} (l : list (option A)) : list A :=
  flat_map (fun o => match o with Some a => [a] | None => [] end) l.

(** [POST /api/batch_tag] *)
Definition batch_tag (tagger : Tagger.t) (data : option BatchRequest.t)
  : response BatchBody.t * Tagger.t :=
  match data with
  | None => (Status400 "Texts array is required", tagger)
  | Some data =>
      match BatchRequest.texts data with
      | None => (Status400 "Texts array is required", tagger)
      | Some texts =>
          let language :=
            match BatchRequest.language data with Some l => l | None => "en" end in
          match switch_language tagger language with
          | (tagger, Some e) => (Status500 e, tagger)
          | (tagger, None) =>
              match each (batch_one tagger (BatchRequest.include_stats data)) texts with
              | Returns results =>
                  (Status200 {| BatchBody.results := present results;
                                BatchBody.total := List.length (present results) |},
                   tagger)
              | Throws e => (Status500 e, tagger)
              end
          end
      end
  end.

End TagRoutes.

(** ** Proof automation *)

(** Every element of a mapped list satisfies a test that holds of each image. *)
Ltac all_images :=
  apply forallb_forall; intros ? Hin; apply in_map_iff in Hin;
  destruct Hin as [? [<- _]]; reflexivity.

(** * Properties *)

(** ** Lemmas on results and dictionaries *)

Lemma mapM_total (A B : Type) (f : A -> result B) (g : A -> B) (l : list A) :
  (forall a, In a l -> f a = Ok (g a)) -> mapM f l = Ok (map g l).
Proof.
  induction l as [|a l IH]; intros Hf; simpl; [reflexivity|].
  rewrite (Hf a (or_introl eq_refl)). simpl.
  rewrite IH by (intros; apply Hf; right; assumption).
  reflexivity.
Qed.

Module PyDictFacts.
Import PyDict.
Section Facts.
Variable V : Type.
Implicit Types (d : dict V) (k : string) (v : V).

Lemma get_set_eq d k v : get (set d k v) k = Some v.
Proof.
  induction d as [|[k' v'] d IH]; simpl.
  - rewrite String.eqb_refl. reflexivity.
  - destruct (String.eqb k' k) eqn:E; simpl; rewrite E; auto.
Qed.

Lemma get_set_ne d k k' v : k <> k' -> get (set d k v) k' = get d k'.
Proof.
  intros Hne. induction d as [|[k0 v0] d IH]; simpl.
  - destruct (String.eqb_spec k k'); congruence.
  - destruct (String.eqb_spec k0 k) as [->|Hk]; simpl.
    + destruct (String.eqb_spec k k'); congruence.
    + rewrite IH. reflexivity.
Qed.

Lemma get_None_keys d k : get d k = None <-> ~ In k (keys d).
Proof.
  induction d as [|[k' v'] d IH]; simpl; [tauto|].
  destruct (String.eqb_spec k' k) as [->|Hk].
  - split; [discriminate | intros H; exfalso; auto].
  - rewrite IH. tauto.
Qed.

Lemma set_fresh d k v : get d k = None -> set d k v = d ++ [(k, v)].
Proof.
  induction d as [|[k' v'] d IH]; simpl; [reflexivity|].
  destruct (String.eqb k' k); [discriminate|].
  intros H. rewrite IH by assumption. reflexivity.
Qed.

Lemma keys_set_present d k v v0 : get d k = Some v0 -> keys (set d k v) = keys d.
Proof.
  unfold keys. induction d as [|[k' v'] d IH]; simpl; [discriminate|].
  destruct (String.eqb k' k); simpl; [reflexivity|].
  intros H. f_equal. apply IH. assumption.
Qed.

Lemma NoDup_keys_set d k v : NoDup (keys d) -> NoDup (keys (set d k v)).
Proof.
  intros Hd. destruct (get d k) as [v0|] eqn:E.
  - erewrite keys_set_present by eassumption. assumption.
  - rewrite set_fresh by assumption. unfold keys. rewrite map_app. simpl.
    apply NoDup_app; [assumption | repeat constructor; simpl; tauto |].
    intros x Hx [<-|[]]. apply get_None_keys in E. contradiction.
Qed.

Lemma fold_set_fresh (kvs : list (string * V)) d :
  NoDup (keys d ++ map fst kvs) ->
  fold_left (fun d kv => set d (fst kv) (snd kv)) kvs d = d ++ kvs.
Proof.
  revert d. induction kvs as [|[k v] kvs IH]; intros d Hnd; simpl.
  - rewrite app_nil_r. reflexivity.
  - assert (E : get d k = None).
    { apply get_None_keys. intros Hin.
      apply NoDup_remove_2 in Hnd. apply Hnd, in_or_app. left. assumption. }
    rewrite set_fresh by assumption. rewrite IH.
    + rewrite <- app_assoc. reflexivity.
    + unfold keys. rewrite map_app. simpl. rewrite <- app_assoc. exact Hnd.
Qed.

(** A comprehension over pairwise distinct keys lists them as they come. *)
Lemma of_items_NoDup (kvs : list (string * V)) :
  NoDup (map fst kvs) -> of_items kvs = kvs.
Proof.
  intros H. unfold of_items, empty. rewrite fold_set_fresh; auto.
Qed.
End Facts.
End PyDictFacts.

(** ** The counting loop of [get_pos_statistics] *)

Section CountingLoop.
Import PyDict PyDictFacts.

Lemma sum_counts_set (d : dict nat) (k : string) :
  sum_counts (set d k (get_default d k 0 + 1)) = sum_counts d + 1.
Proof.
  unfold sum_counts, values, get_default.
  induction d as [|[k' v'] d IH]; simpl; [reflexivity|].
  destruct (String.eqb k' k); simpl; lia.
Qed.

Lemma eligible_words_snoc (seen : list POSTag) (tag : POSTag) :
  eligible_words (seen ++ [tag]) =
  eligible_words seen ++ (if eligible tag then [tag] else []).
Proof. unfold eligible_words. rewrite filter_app. reflexivity. Qed.

Lemma count_pos_snoc (p : string) (seen : list POSTag) (tag : POSTag) :
  count_pos p (seen ++ [tag]) =
  count_pos p seen +
  (if eligible tag && String.eqb (pos tag) p then 1 else 0).
Proof.
  unfold count_pos. rewrite eligible_words_snoc, filter_app, length_app.
  destruct (eligible tag); simpl; [|reflexivity].
  destruct (String.eqb (pos tag) p); reflexivity.
Qed.

Lemma counted_nil : counted [] empty 0.
Proof. split; simpl; auto using NoDup_nil. Qed.

Lemma counted_step seen d n tag :
  counted seen d n ->
  counted (seen ++ [tag]) (fst (count_tag (d, n) tag)) (snd (count_tag (d, n) tag)).
Proof.
  intros [Hk Ht Hg Hs]. unfold count_tag. fold (eligible tag).
  destruct (eligible tag) eqn:E; simpl; split.
  - apply NoDup_keys_set. assumption.
  - rewrite eligible_words_snoc, E, length_app. simpl. lia.
  - intros p. rewrite count_pos_snoc, E. simpl.
    destruct (String.eqb_spec (pos tag) p) as [<-|Hne].
    + rewrite get_set_eq. unfold get_default. rewrite Hg.
      destruct (count_pos (pos tag) seen) as [|c]; simpl; [reflexivity|].
      replace (c + 1 =? 0) with false by (symmetry; apply Nat.eqb_neq; lia).
      reflexivity.
    + rewrite get_set_ne by assumption. rewrite Hg, Nat.add_0_r. reflexivity.
  - rewrite sum_counts_set. lia.
  - assumption.
  - rewrite eligible_words_snoc, E, app_nil_r. assumption.
  - intros p. rewrite count_pos_snoc, E. simpl. rewrite Nat.add_0_r. apply Hg.
  - assumption.
Qed.

Lemma counted_loop tags : forall seen d n,
  counted seen d n ->
  counted (seen ++ tags)
          (fst (fold_left count_tag tags (d, n)))
          (snd (fold_left count_tag tags (d, n))).
Proof.
  induction tags as [|tag tags IH]; intros seen d n H.
  - simpl. rewrite app_nil_r. assumption.
  - replace (seen ++ tag :: tags) with ((seen ++ [tag]) ++ tags)
      by (rewrite <- app_assoc; reflexivity).
    change (fold_left count_tag (tag :: tags) (d, n))
      with (fold_left count_tag tags (count_tag (d, n) tag)).
    rewrite (surjective_pairing (count_tag (d, n) tag)).
    apply IH, counted_step, H.
Qed.

Lemma counted_all tags :
  counted tags (fst (fold_left count_tag tags (empty, 0)))
               (snd (fold_left count_tag tags (empty, 0))).
Proof. apply (counted_loop tags (seen := [])), counted_nil. Qed.

(** No word, no category. *)
Lemma counted_no_word seen d : counted seen d 0 -> d = [].
Proof.
  intros [_ Ht Hg _]. destruct d as [|[k v] d]; [reflexivity|].
  specialize (Hg k). simpl in Hg. rewrite String.eqb_refl in Hg.
  unfold count_pos in Hg. symmetry in Ht. apply length_zero_iff_nil in Ht.
  rewrite Ht in Hg. simpl in Hg. discriminate.
Qed.
End CountingLoop.

(** ** Exact arithmetic on percentages *)

Section Percentages.
Local Open Scope Qc_scope.

Lemma Qc_of_nat_add (a b : nat) :
  Qc_of_nat (a + b) = Qc_of_nat a + Qc_of_nat b.
Proof.
  unfold Qc_of_nat, Qcplus. apply Q2Qc_eq_iff. cbn [this Q2Qc].
  rewrite !Qred_correct, Nat2Z.inj_add, inject_Z_plus. reflexivity.
Qed.

Lemma Qc_of_nat_neq_0 (n : nat) : n <> 0%nat -> Qc_of_nat n <> Q2Qc 0.
Proof.
  intros Hn H. unfold Qc_of_nat in H. apply Q2Qc_eq_iff in H.
  unfold Qeq in H. simpl in H. lia.
Qed.

Lemma fold_plus_shares (total : nat) (d : PyDict.dict nat) (acc : Qc) :
  fold_left Qcplus (map (fun kc => share total (snd kc)) d) acc =
  acc + share total (sum_counts d).
Proof.
  revert acc. unfold sum_counts, PyDict.values.
  induction d as [|[k c] d IH]; intros acc; simpl.
  - unfold share, Qcdiv. change (Qc_of_nat 0) with (Q2Qc 0). ring.
  - rewrite IH. unfold share, Qcdiv. rewrite (Qc_of_nat_add c). ring.
Qed.

Lemma share_all (total : nat) : total <> 0%nat -> share total total = Qc_of_nat 100.
Proof.
  intros H. unfold share, Qcdiv.
  rewrite Qcmult_inv_r by (apply Qc_of_nat_neq_0; assumption). ring.
Qed.
End Percentages.

(** ** [get_pos_statistics] in closed form *)

Lemma percentage_Ok (total : nat) (item : string * nat) :
  total <> 0 -> percentage total item = Ok (fst item, share total (snd item)).
Proof.
  intros H. destruct item as [k c]. unfold percentage, py_truediv.
  apply Nat.eqb_neq in H. rewrite H. reflexivity.
Qed.

Lemma get_pos_statistics_closed (tags : list POSTag) :
  let st := fold_left count_tag tags (PyDict.empty, 0) in
  get_pos_statistics tags =
  Ok {| total_words := snd st;
        pos_counts := fst st;
        pos_percentages := percentages_of (snd st) (fst st);
        unique_pos_tags := List.length (fst st) |}.
Proof.
  intros st. pose proof (counted_all tags) as H. fold st in H.
  unfold get_pos_statistics. fold st. destruct st as [d n]. simpl in *.
  destruct (Nat.eq_dec n 0) as [->|Hn].
  - rewrite (counted_no_word H). reflexivity.
  - unfold PyDict.items.
    rewrite (mapM_total _ (fun kc => (fst kc, share n (snd kc))))
      by (intros; apply percentage_Ok; assumption).
    simpl. rewrite PyDictFacts.of_items_NoDup.
    + reflexivity.
    + rewrite map_map. simpl. apply (counted_keys H).
Qed.

Lemma get_percentages_of (total : nat) (d : PyDict.dict nat) (p : string) :
  PyDict.get (percentages_of total d) p = option_map (share total) (PyDict.get d p).
Proof.
  unfold percentages_of. induction d as [|[k c] d IH]; simpl; [reflexivity|].
  destruct (String.eqb k p); [reflexivity | apply IH].
Qed.

Lemma keys_percentages_of (total : nat) (d : PyDict.dict nat) :
  PyDict.keys (percentages_of total d) = PyDict.keys d.
Proof. unfold PyDict.keys, percentages_of. rewrite map_map. reflexivity. Qed.

Lemma sum_percentages_of (total : nat) (d : PyDict.dict nat) :
  sum_counts d = total -> total <> 0 ->
  py_sum (PyDict.values (percentages_of total d)) = Qc_of_nat 100.
Proof.
  intros Hs Hn. unfold py_sum, PyDict.values, percentages_of.
  rewrite map_map. simpl. rewrite fold_plus_shares, Hs, share_all by assumption.
  ring.
Qed.

Lemma approx_abs_refl (x tol : Qc) : (Q2Qc 0 <= tol)%Qc -> approx_abs x x tol.
Proof.
  intros H. unfold approx_abs. split.
  - apply Qcle_minus_iff. replace (x + - (x - tol))%Qc with tol by ring. exact H.
  - apply Qcle_minus_iff. replace (x + tol + - x)%Qc with tol by ring. exact H.
Qed.

(** ** Statistics *)

(** C2. Whenever at least one word is counted, the percentages returned by
    [get_pos_statistics] add up to exactly 100, hence to 100 within the
    absolute tolerance 0.1 of the test suite. *)
Theorem percentages_sum_to_100 (tags : list POSTag) :
  0 < List.length (eligible_words tags) ->
  exists st,
    get_pos_statistics tags = Ok st /\
    0 < total_words st /\
    py_sum (PyDict.values (pos_percentages st)) = Qc_of_nat 100 /\
    approx_abs (py_sum (PyDict.values (pos_percentages st)))
               (Qc_of_nat 100) (Q2Qc (1 # 10)).
Proof.
  intros Hpos. eexists. split; [apply get_pos_statistics_closed|].
  pose proof (counted_all tags) as [_ Ht _ Hs]. simpl.
  assert (Hsum : py_sum (PyDict.values
                   (percentages_of (snd (fold_left count_tag tags (PyDict.empty, 0)))
                                   (fst (fold_left count_tag tags (PyDict.empty, 0)))))
                 = Qc_of_nat 100)
    by (apply sum_percentages_of; [assumption | lia]).
  split; [lia|]. split; [exact Hsum|].
  rewrite Hsum. apply approx_abs_refl. unfold Qcle. simpl. discriminate.
Qed.

Lemma percentages_sum_to_100_witness :
  exists st,
    get_pos_statistics Samples.the_quick_fox_jumps = Ok st /\
    0 < total_words st /\
    py_sum (PyDict.values (pos_percentages st)) = Qc_of_nat 100 /\
    approx_abs (py_sum (PyDict.values (pos_percentages st)))
               (Qc_of_nat 100) (Q2Qc (1 # 10)).
Proof.
  apply (percentages_sum_to_100 Samples.the_quick_fox_jumps). simpl. lia.
Defined.

Lemma count_tag_eligible (d : PyDict.dict nat) (n : nat) (tag : POSTag) :
  eligible tag = true ->
  count_tag (d, n) tag =
  (PyDict.set d (pos tag) (PyDict.get_default d (pos tag) 0 + 1), n + 1).
Proof. intros E. unfold count_tag. fold (eligible tag). rewrite E. reflexivity. Qed.

Lemma share_quarter : share 4 1 = Qc_of_nat 25.
Proof. apply Qc_is_canon. reflexivity. Qed.

(** C5. [get_pos_statistics] counts the tags flagged neither whitespace nor
    punctuation, one entry per coarse category; [total_words] is the number
    of such tags and the sum of the entries; the percentage of a category is
    100 * count / total_words.  On "The quick fox jumps", tagged DET, ADJ,
    NOUN, VERB, it returns 4 words, one per category, 25 percent each. *)
Theorem statistics_count_words :
  (forall tags : list POSTag,
     exists st,
       get_pos_statistics tags = Ok st /\
       (forall p,
          PyDict.get (pos_counts st) p =
          if count_pos p tags =? 0 then None else Some (count_pos p tags)) /\
       NoDup (PyDict.keys (pos_counts st)) /\
       total_words st = List.length (eligible_words tags) /\
       total_words st = sum_counts (pos_counts st) /\
       unique_pos_tags st = PyDict.len (pos_counts st) /\
       PyDict.keys (pos_percentages st) = PyDict.keys (pos_counts st) /\
       (forall p,
          PyDict.get (pos_percentages st) p =
          option_map
            (fun count =>
               (Qc_of_nat 100 * Qc_of_nat count / Qc_of_nat (total_words st))%Qc)
            (PyDict.get (pos_counts st) p)))
  /\
  (forall tags : list POSTag,
     map pos tags = ["DET"; "ADJ"; "NOUN"; "VERB"] ->
     forallb eligible tags = true ->
     get_pos_statistics tags =
     Ok {| total_words := 4;
           pos_counts := [("DET", 1); ("ADJ", 1); ("NOUN", 1); ("VERB", 1)];
           pos_percentages :=
             [("DET", Qc_of_nat 25); ("ADJ", Qc_of_nat 25);
              ("NOUN", Qc_of_nat 25); ("VERB", Qc_of_nat 25)];
           unique_pos_tags := 4 |}).
Proof.
  split.
  - intros tags. eexists. split; [apply get_pos_statistics_closed|].
    pose proof (counted_all tags) as [Hk Ht Hg Hs]. simpl.
    repeat split; auto using keys_percentages_of.
    intros p. rewrite get_percentages_of.
    destruct (PyDict.get _ p); simpl; [|reflexivity].
    f_equal. unfold share, Qcdiv. ring.
  - intros tags Hpos Hel.
    destruct tags as [|t1 [|t2 [|t3 [|t4 [|t5 tags]]]]]; try discriminate Hpos.
    injection Hpos as H1 H2 H3 H4.
    simpl in Hel. repeat (apply andb_prop in Hel; destruct Hel as [? Hel]).
    rewrite get_pos_statistics_closed. cbn [fold_left].
    rewrite !count_tag_eligible by assumption.
    rewrite H1, H2, H3, H4. simpl. rewrite share_quarter. reflexivity.
Qed.

Lemma statistics_count_words_witness :
  get_pos_statistics Samples.the_quick_fox_jumps =
  Ok {| total_words := 4;
        pos_counts := [("DET", 1); ("ADJ", 1); ("NOUN", 1); ("VERB", 1)];
        pos_percentages :=
          [("DET", Qc_of_nat 25); ("ADJ", Qc_of_nat 25);
           ("NOUN", Qc_of_nat 25); ("VERB", Qc_of_nat 25)];
        unique_pos_tags := 4 |}.
Proof.
  apply (proj2 statistics_count_words Samples.the_quick_fox_jumps); reflexivity.
Defined.

(** C6. With no word to count, [get_pos_statistics] divides by nothing: the
    dictionary of counts is empty, so the comprehension that would divide by
    [total_words = 0] has no item to run on, and the call returns the empty
    statistics.  (A division by zero would raise: [py_truediv c 0].) *)
Theorem no_word_no_division (tags : list POSTag) :
  List.length (eligible_words tags) = 0 ->
  (forall c, py_truediv c 0 = Raise ZeroDivisionError) /\
  fold_left count_tag tags (PyDict.empty, 0) = (PyDict.empty, 0) /\
  mapM (percentage 0) (PyDict.items (@PyDict.empty nat)) = Ok [] /\
  get_pos_statistics tags =
  Ok {| total_words := 0;
        pos_counts := PyDict.empty;
        pos_percentages := PyDict.empty;
        unique_pos_tags := 0 |} /\
  get_pos_statistics tags <> Raise ZeroDivisionError.
Proof.
  intros H0. pose proof (counted_all tags) as Hc.
  assert (E : fold_left count_tag tags (PyDict.empty, 0) = (PyDict.empty, 0)).
  { destruct (fold_left count_tag tags (PyDict.empty, 0)) as [d n]. simpl in Hc.
    assert (n = 0) by (rewrite (counted_total Hc); assumption). subst n.
    rewrite (counted_no_word Hc). reflexivity. }
  assert (R : get_pos_statistics tags =
              Ok {| total_words := 0; pos_counts := PyDict.empty;
                    pos_percentages := PyDict.empty; unique_pos_tags := 0 |}).
  { rewrite get_pos_statistics_closed, E. reflexivity. }
  repeat split; auto. rewrite R. discriminate.
Qed.

Lemma no_word_no_division_witness :
  get_pos_statistics
    [mkPOSTag "," "PUNCT" "," "," true false false "punct" None None;
     mkPOSTag " " "SPACE" "_SP" " " false true false "dep" None None] =
  Ok {| total_words := 0;
        pos_counts := PyDict.empty;
        pos_percentages := PyDict.empty;
        unique_pos_tags := 0 |}.
Proof.
  apply (no_word_no_division
           [mkPOSTag "," "PUNCT" "," "," true false false "punct" None None;
            mkPOSTag " " "SPACE" "_SP" " " false true false "dep" None None]).
  reflexivity.
Defined.

(** ** Positions in a sequence *)

Section Enumerate.
Variable A : Type.
Implicit Types (l : list A) (P : nat * A -> bool).

Lemma flat_map_ext_in (B : Type) (f g : nat -> list B) (js : list nat) :
  (forall j, In j js -> f j = g j) -> flat_map f js = flat_map g js.
Proof.
  induction js as [|j js IH]; intros H; simpl; [reflexivity|].
  rewrite (H j) by (left; reflexivity).
  rewrite IH by (intros; apply H; right; assumption).
  reflexivity.
Qed.

Lemma filter_filter (B : Type) (f g : B -> bool) (xs : list B) :
  filter f (filter g xs) = filter (fun x => g x && f x) xs.
Proof.
  induction xs as [|x xs IH]; simpl; [reflexivity|].
  destruct (g x); simpl; [destruct (f x)|]; rewrite IH; reflexivity.
Qed.

Lemma enumerate_from_fst l : forall k,
  map fst (enumerate_from k l) = seq k (List.length l).
Proof. induction l as [|a l IH]; intros k; simpl; [|rewrite IH]; reflexivity. Qed.

Lemma enumerate_from_snd l : forall k, map snd (enumerate_from k l) = l.
Proof. induction l as [|a l IH]; intros k; simpl; [|rewrite IH]; reflexivity. Qed.

Lemma In_enumerate_from l : forall k i a,
  In (i, a) (enumerate_from k l) <-> k <= i /\ nth_error l (i - k) = Some a.
Proof.
  induction l as [|a0 l IH]; intros k i a; simpl.
  - split; [tauto|]. intros [_ H]. destruct (i - k); discriminate.
  - rewrite IH. split.
    + intros [[= <- <-]|[Hle Hn]].
      * rewrite Nat.sub_diag. auto.
      * split; [lia|]. replace (i - k) with (S (i - S k)) by lia. exact Hn.
    + intros [Hle Hn]. destruct (Nat.eq_dec k i) as [->|Hne].
      * rewrite Nat.sub_diag in Hn. injection Hn as <-. left. reflexivity.
      * right. split; [lia|].
        replace (i - k) with (S (i - S k)) in Hn by lia. exact Hn.
Qed.

Lemma filter_enumerate_ge P l : forall k,
  Forall (fun j => k <= j) (map fst (filter P (enumerate_from k l))).
Proof.
  induction l as [|a l IH]; intros k; simpl; [constructor|].
  assert (Forall (fun j => k <= j) (map fst (filter P (enumerate_from (S k) l)))).
  { eapply Forall_impl; [|apply IH]. simpl. intros; lia. }
  destruct (P (k, a)); simpl; auto.
Qed.

(** Filtering keeps the positions strictly increasing. *)
Lemma filter_enumerate_sorted P l : forall k,
  StronglySorted lt (map fst (filter P (enumerate_from k l))).
Proof.
  induction l as [|a l IH]; intros k; simpl; [constructor|].
  destruct (P (k, a)); simpl; [|apply IH].
  constructor; [apply IH|].
  eapply Forall_impl; [|apply (filter_enumerate_ge P l (S k))]. simpl. intros; lia.
Qed.

Lemma filter_enumerate_below P l i : forall k,
  i < k -> filter (fun it => (fst it =? i) && P it) (enumerate_from k l) = [].
Proof.
  induction l as [|a l IH]; intros k Hlt; simpl; [reflexivity|].
  replace (k =? i) with false by (symmetry; apply Nat.eqb_neq; lia).
  simpl. apply IH. lia.
Qed.

(** At most one entry sits at a given position. *)
Lemma filter_enumerate_at P l i : forall k,
  k <= i ->
  filter (fun it => (fst it =? i) && P it) (enumerate_from k l) =
  match nth_error l (i - k) with
  | Some a => if P (i, a) then [(i, a)] else []
  | None => []
  end.
Proof.
  induction l as [|a l IH]; intros k Hle; simpl.
  - destruct (i - k); reflexivity.
  - destruct (Nat.eq_dec k i) as [->|Hne].
    + rewrite Nat.eqb_refl, Nat.sub_diag. simpl.
      rewrite filter_enumerate_below by lia.
      destruct (P (i, a)); reflexivity.
    + replace (k =? i) with false by (symmetry; apply Nat.eqb_neq; lia).
      simpl. rewrite IH by lia.
      replace (i - k) with (S (i - S k)) by lia. reflexivity.
Qed.

(** Filtering the enumerated sequence visits the positions left to right. *)
Lemma filter_enumerate_flat_map P l : forall k,
  map snd (filter P (enumerate_from k l)) =
  flat_map (fun j => match nth_error l (j - k) with
                     | Some a => if P (j, a) then [a] else []
                     | None => []
                     end)
           (seq k (List.length l)).
Proof.
  induction l as [|a l IH]; intros k; simpl; [reflexivity|].
  rewrite Nat.sub_diag. simpl.
  rewrite (flat_map_ext_in _
             (fun j => match nth_error l (j - S k) with
                       | Some a => if P (j, a) then [a] else []
                       | None => []
                       end)).
  - rewrite <- IH. destruct (P (k, a)); reflexivity.
  - intros j Hj. apply in_seq in Hj.
    replace (j - k) with (S (j - S k)) by lia. reflexivity.
Qed.
End Enumerate.

(** ** Phrases *)

Lemma children_auxiliaries (doc : Doc.t) (i : nat) :
  filter is_aux (Doc.children doc i) = auxiliaries doc i.
Proof.
  unfold Doc.children, auxiliaries, enumerate, Doc.len.
  rewrite filter_map_swap, filter_filter, filter_enumerate_flat_map.
  apply flat_map_ext. intros j. rewrite Nat.sub_0_r. reflexivity.
Qed.

Lemma noun_phrases_are_noun (chunks : list Span.t) :
  filter is_noun_phrase (map noun_phrase chunks) = map noun_phrase chunks.
Proof. apply forallb_filter_id. all_images. Qed.

Lemma noun_phrases_not_verb (f : Phrase.t -> bool) (chunks : list Span.t) :
  filter (fun ph => is_verb_phrase ph && f ph) (map noun_phrase chunks) = [].
Proof. induction chunks as [|c chunks IH]; simpl; [reflexivity | exact IH]. Qed.

Lemma extract_phrases_closed (nlp : string -> Doc.t) (text : string) :
  extract_phrases nlp text =
  Ok (map noun_phrase (Doc.noun_chunks (nlp text)) ++
      map (fun it => verb_phrase (nlp text) (fst it) (snd it))
          (filter is_verb (enumerate (Doc.tokens (nlp text))))).
Proof. reflexivity. Qed.

(** C3. A token tagged VERB at position [i] yields exactly one verb phrase:
    its text is the surface forms of the token's aux and auxpass children,
    left to right, then the verb itself, joined by single spaces; its root is
    the verb; its span is the verb token alone, [i, i + 1). *)
Theorem verb_phrase_per_verb
  (nlp : string -> Doc.t) (text : string) (i : nat) (token : Token.t) :
  nth_error (Doc.tokens (nlp text)) i = Some token ->
  Token.pos_ token = "VERB" ->
  exists phrases,
    extract_phrases nlp text = Ok phrases /\
    filter (fun ph => is_verb_phrase ph && (Phrase.start ph =? i)) phrases =
    [ {| Phrase.text :=
           String.concat " "
             (map Token.text (auxiliaries (nlp text) i) ++ [Token.text token]);
         Phrase.type := "verb_phrase";
         Phrase.root := Token.text token;
         Phrase.start := i;
         Phrase.end_ := i + 1 |} ].
Proof.
  intros Hi Hverb. eexists. split; [apply extract_phrases_closed|].
  rewrite filter_app, noun_phrases_not_verb, filter_map_swap, filter_filter.
  simpl. unfold enumerate.
  rewrite (filter_ext _ (fun it => (fst it =? i) && is_verb it))
    by (intros [j t]; simpl; apply andb_comm).
  rewrite filter_enumerate_at by lia. rewrite Nat.sub_0_r, Hi.
  unfold is_verb. simpl. rewrite Hverb. simpl.
  unfold verb_phrase. rewrite children_auxiliaries. reflexivity.
Qed.

Lemma verb_phrase_per_verb_witness :
  exists phrases,
    extract_phrases (fun _ => Samples.he_has_been_seen) "He has been seen, he left" =
    Ok phrases /\
    filter (fun ph => is_verb_phrase ph && (Phrase.start ph =? 3)) phrases =
    [ Phrase.mk "has been seen" "verb_phrase" "seen" 3 4 ].
Proof.
  apply (@verb_phrase_per_verb (fun _ => Samples.he_has_been_seen)
           "He has been seen, he left" 3
           (Samples.tok "seen" "VERB" "ROOT" 3 false false));
    reflexivity.
Defined.

(** C9. Without a token tagged VERB, [extract_phrases] returns the noun
    phrases relayed from the chunker and nothing else: no verb phrase. *)
Theorem no_verb_no_verb_phrase (nlp : string -> Doc.t) (text : string) :
  (forall token, In token (Doc.tokens (nlp text)) -> Token.pos_ token <> "VERB") ->
  exists phrases,
    extract_phrases nlp text = Ok phrases /\
    filter is_verb_phrase phrases = [] /\
    filter is_noun_phrase phrases = map noun_phrase (Doc.noun_chunks (nlp text)) /\
    phrases = map noun_phrase (Doc.noun_chunks (nlp text)).
Proof.
  intros Hno. eexists. split; [apply extract_phrases_closed|].
  assert (E : filter is_verb (enumerate (Doc.tokens (nlp text))) = []).
  { destruct (filter is_verb (enumerate (Doc.tokens (nlp text)))) as [|[j t] r] eqn:F;
      [reflexivity|].
    assert (Hin : In (j, t) (filter is_verb (enumerate (Doc.tokens (nlp text)))))
      by (rewrite F; left; reflexivity).
    apply filter_In in Hin. destruct Hin as [Hin Hv].
    apply In_enumerate_from in Hin. destruct Hin as [_ Hn].
    apply nth_error_In in Hn. unfold is_verb in Hv. simpl in Hv.
    apply String.eqb_eq in Hv. exfalso. exact (Hno t Hn Hv). }
  rewrite E. simpl. rewrite app_nil_r. repeat split.
  - induction (Doc.noun_chunks (nlp text)); simpl; auto.
  - apply noun_phrases_are_noun.
Qed.

Lemma no_verb_no_verb_phrase_witness :
  extract_phrases (fun _ => Samples.hello_world) "Hello, world" =
  Ok [Phrase.mk "world" "noun_phrase" "world" 2 3].
Proof.
  destruct (no_verb_no_verb_phrase (fun _ => Samples.hello_world) "Hello, world")
    as [phrases [H [_ [_ E]]]].
  - simpl. intros token [<-|[<-|[<-|[]]]]; discriminate.
  - rewrite H, E. reflexivity.
Defined.

(** C10. The list returned by [extract_phrases] is the noun phrases followed
    by the verb phrases, and the verb phrases come in the left-to-right order
    of their verb tokens: their starts are the positions of the tokens tagged
    VERB, strictly increasing, each phrase rooted at the token found there. *)
Theorem phrases_are_ordered (nlp : string -> Doc.t) (text : string) :
  exists nouns verbs,
    extract_phrases nlp text = Ok (nouns ++ verbs) /\
    forallb is_noun_phrase nouns = true /\
    forallb is_verb_phrase verbs = true /\
    map Phrase.start verbs = verb_positions (nlp text) /\
    StronglySorted lt (map Phrase.start verbs) /\
    (forall i, In i (verb_positions (nlp text)) <->
               exists token, nth_error (Doc.tokens (nlp text)) i = Some token /\
                             Token.pos_ token = "VERB") /\
    (forall ph, In ph verbs ->
       exists token, nth_error (Doc.tokens (nlp text)) (Phrase.start ph) = Some token /\
                     Phrase.root ph = Token.text token).
Proof.
  exists (map noun_phrase (Doc.noun_chunks (nlp text))).
  exists (map (fun it => verb_phrase (nlp text) (fst it) (snd it))
              (filter is_verb (enumerate (Doc.tokens (nlp text))))).
  split; [apply extract_phrases_closed|].
  split; [all_images|]. split; [all_images|].
  assert (Hstart : map Phrase.start
                     (map (fun it => verb_phrase (nlp text) (fst it) (snd it))
                          (filter is_verb (enumerate (Doc.tokens (nlp text)))))
                   = verb_positions (nlp text)).
  { unfold verb_positions. rewrite map_map. reflexivity. }
  split; [exact Hstart|].
  split; [rewrite Hstart; apply filter_enumerate_sorted|].
  split.
  - intros i. unfold verb_positions. rewrite in_map_iff. split.
    + intros [[j t] [Hj Hin]]. simpl in Hj. subst j.
      apply filter_In in Hin. destruct Hin as [Hin Hv].
      apply In_enumerate_from in Hin. destruct Hin as [_ Hn].
      rewrite Nat.sub_0_r in Hn. exists t. split; [exact Hn|].
      apply String.eqb_eq. exact Hv.
    + intros [t [Hn Hv]]. exists (i, t). split; [reflexivity|].
      apply filter_In. split.
      * apply In_enumerate_from. rewrite Nat.sub_0_r. split; [lia | exact Hn].
      * unfold is_verb. simpl. rewrite Hv. reflexivity.
  - intros ph Hin. apply in_map_iff in Hin. destruct Hin as [[j t] [<- Hin]].
    apply filter_In in Hin. destruct Hin as [Hin _].
    apply In_enumerate_from in Hin. destruct Hin as [_ Hn].
    rewrite Nat.sub_0_r in Hn. exists t. simpl. auto.
Qed.

(** ** Sentence structure *)


Lemma dependency_ok_iff (doc : Doc.t) (token : Token.t) :
  is_ok (dependency doc token) = (Token.head token <? Doc.len doc).
Proof.
  unfold dependency, Doc.index, py_index, Doc.len.
  destruct (nth_error (Doc.tokens doc) (Token.head token)) eqn:E; simpl.
  - symmetry. apply Nat.ltb_lt. apply nth_error_Some. congruence.
  - symmetry. apply Nat.ltb_ge. apply nth_error_None. assumption.
Qed.



Lemma dependencies_in_range (doc : Doc.t) :
  heads_in_range doc = true ->
  exists deps, mapM (dependency doc) (Doc.tokens doc) = Ok deps /\
               List.length deps = Doc.len doc.
Proof.
  unfold heads_in_range, Doc.len at 2.
  induction (Doc.tokens doc) as [|a l IH]; simpl; intros H.
  - exists []. auto.
  - apply andb_prop in H. destruct H as [Ha Hl].
    destruct (IH Hl) as [deps [E L]].
    rewrite <- dependency_ok_iff in Ha.
    destruct (dependency doc a) as [b|]; [|discriminate].
    exists (b :: deps). simpl. rewrite E. simpl. auto.
Qed.


Lemma filter_root_cons (doc : Doc.t) :
  has_root doc = true ->
  exists r rs, filter is_root (Doc.tokens doc) = r :: rs.
Proof.
  unfold has_root. induction (Doc.tokens doc) as [|a l IH]; simpl; [discriminate|].
  destruct (is_root a); simpl; eauto.
Qed.

Lemma analyze_empty (nlp : string -> Doc.t) (text : string) :
  Doc.tokens (nlp text) = [] ->
  analyze_sentence_structure nlp text =
  Ok {| root := None; root_pos := None; dependencies := []; sentence_length := 0 |}.
Proof.
  intros E. unfold analyze_sentence_structure, Doc.truthy, Doc.len.
  rewrite E. reflexivity.
Qed.











(** C4. All three operations accept the empty token sequence: zero words and
    empty dictionaries, no phrase, null root with no dependency and length
    zero. *)
Theorem empty_sequence_is_accepted
  (nlp : string -> Doc.t) (explain : string -> option string)
  (text : string) (include_confidence : bool) :
  Doc.tokens (nlp text) = [] ->
  Forall (Doc.chunk_in_range (nlp text)) (Doc.noun_chunks (nlp text)) ->
  tag_text nlp explain text include_confidence = [] /\
  get_pos_statistics (tag_text nlp explain text include_confidence) =
  Ok {| total_words := 0; pos_counts := PyDict.empty;
        pos_percentages := PyDict.empty; unique_pos_tags := 0 |} /\
  extract_phrases nlp text = Ok [] /\
  analyze_sentence_structure nlp text =
  Ok {| root := None; root_pos := None;
        dependencies := []; sentence_length := 0 |}.
Proof.
  intros E Hc.
  assert (T : tag_text nlp explain text include_confidence = [])
    by (unfold tag_text; rewrite E; reflexivity).
  assert (C : Doc.noun_chunks (nlp text) = []).
  { destruct (Doc.noun_chunks (nlp text)) as [|c cs]; [reflexivity|].
    inversion Hc as [|? ? [H1 H2] _]. unfold Doc.len in H2. rewrite E in H2.
    simpl in H2. lia. }
  repeat split.
  - exact T.
  - rewrite T. reflexivity.
  - rewrite extract_phrases_closed, C, E. reflexivity.
  - apply analyze_empty, E.
Qed.

Lemma empty_sequence_is_accepted_witness :
  get_pos_statistics (tag_text (fun _ => Samples.empty_doc) Samples.no_explain "" true) =
  Ok {| total_words := 0; pos_counts := PyDict.empty;
        pos_percentages := PyDict.empty; unique_pos_tags := 0 |} /\
  extract_phrases (fun _ => Samples.empty_doc) "" = Ok [] /\
  analyze_sentence_structure (fun _ => Samples.empty_doc) "" =
  Ok {| root := None; root_pos := None;
        dependencies := []; sentence_length := 0 |}.
Proof.
  apply (empty_sequence_is_accepted
           (fun _ => Samples.empty_doc) Samples.no_explain "" true).
  - reflexivity.
  - constructor.
Defined.







(** ** The scenarios of the specification, run *)

Example is_running_phrase :
  extract_phrases (fun _ => Samples.is_running) "is running" =
  Ok [Phrase.mk "is running" "verb_phrase" "running" 1 2].
Proof. reflexivity. Qed.

Example he_has_been_seen_phrases :
  extract_phrases (fun _ => Samples.he_has_been_seen) "He has been seen, he left" =
  Ok [Phrase.mk "He" "noun_phrase" "He" 0 1;
      Phrase.mk "he" "noun_phrase" "he" 5 6;
      Phrase.mk "has been seen" "verb_phrase" "seen" 3 4;
      Phrase.mk "left" "verb_phrase" "left" 6 7].
Proof. reflexivity. Qed.

Example hello_world_structure :
  analyze_sentence_structure (fun _ => Samples.hello_world) "Hello, world" =
  Ok {| root := Some "world";
        root_pos := Some "NOUN";
        dependencies :=
          [Dependency.mk "Hello" "intj" "world" "INTJ";
           Dependency.mk "," "punct" "world" "PUNCT";
           Dependency.mk "world" "ROOT" "world" "NOUN"];
        sentence_length := 3 |}.
Proof. reflexivity. Qed.

(** * Further properties *)

(** ** More on the statistics *)

Lemma count_tag_not_eligible (st : PyDict.dict nat * nat) (tag : POSTag) :
  eligible tag = false -> count_tag st tag = st.
Proof.
  intros E. destruct st as [d n]. unfold count_tag. fold (eligible tag).
  rewrite E. reflexivity.
Qed.

Lemma count_loop_words (tags : list POSTag) : forall st,
  fold_left count_tag tags st = fold_left count_tag (eligible_words tags) st.
Proof.
  induction tags as [|tag tags IH]; intros st; simpl; [reflexivity|].
  destruct (eligible tag) eqn:E; simpl.
  - apply IH.
  - rewrite count_tag_not_eligible by assumption. apply IH.
Qed.

(** X1. Tags flagged whitespace or punctuation are inert: dropping them
    before the call leaves the whole result of [get_pos_statistics]
    unchanged. *)
Theorem statistics_ignore_non_words (tags : list POSTag) :
  get_pos_statistics tags = get_pos_statistics (eligible_words tags).
Proof.
  unfold get_pos_statistics. rewrite count_loop_words. reflexivity.
Qed.

Lemma filter_not_in_app (ks : list string) (p : string) (l : list string) :
  filter (fun y => negb (existsb (String.eqb y) (ks ++ [p]))) l =
  filter (fun y => negb (existsb (String.eqb y) ks))
         (filter (fun y => negb (String.eqb y p)) l).
Proof.
  rewrite filter_filter. apply filter_ext. intros y.
  rewrite existsb_app. simpl. rewrite orb_false_r, negb_orb. apply andb_comm.
Qed.

Lemma existsb_eqb_In (ks : list string) (p : string) :
  existsb (String.eqb p) ks = true <-> In p ks.
Proof.
  rewrite existsb_exists. split.
  - intros [x [Hin E]]. apply String.eqb_eq in E. subst. assumption.
  - intros Hin. exists p. split; [assumption | apply String.eqb_refl].
Qed.

Lemma filter_known_key (ks : list string) (p : string) (l : list string) :
  In p ks ->
  filter (fun y => negb (existsb (String.eqb y) ks))
         (filter (fun y => negb (String.eqb y p)) l) =
  filter (fun y => negb (existsb (String.eqb y) ks)) l.
Proof.
  intros Hin. rewrite filter_filter. apply filter_ext_in. intros y _.
  destruct (String.eqb_spec y p) as [->|Hne]; simpl; [|reflexivity].
  apply existsb_eqb_In in Hin. rewrite Hin. reflexivity.
Qed.

(** The keys after the loop: those before it, then the fresh categories as
    they come. *)
Lemma count_loop_keys (tags : list POSTag) : forall d n,
  PyDict.keys (fst (fold_left count_tag tags (d, n))) =
  PyDict.keys d ++
  filter (fun y => negb (existsb (String.eqb y) (PyDict.keys d)))
         (first_seen (map pos (eligible_words tags))).
Proof.
  induction tags as [|tag tags IH]; intros d n.
  - simpl. rewrite app_nil_r. reflexivity.
  - cbn [fold_left]. destruct (eligible tag) eqn:E.
    + rewrite count_tag_eligible by assumption. rewrite IH.
      unfold eligible_words. simpl. rewrite E. simpl.
      fold (eligible_words tags).
      destruct (PyDict.get d (pos tag)) as [v|] eqn:G.
      * erewrite PyDictFacts.keys_set_present by eassumption.
        assert (Hin : In (pos tag) (PyDict.keys d)).
        { destruct (in_dec string_dec (pos tag) (PyDict.keys d)) as [H|H];
            [assumption|]. apply PyDictFacts.get_None_keys in H. congruence. }
        pose proof Hin as Hex. apply existsb_eqb_In in Hex. rewrite Hex. simpl.
        rewrite filter_known_key by assumption. reflexivity.
      * assert (K : forall v, PyDict.keys (PyDict.set d (pos tag) v) =
                                PyDict.keys d ++ [pos tag]).
        { intros v. rewrite PyDictFacts.set_fresh by assumption.
          unfold PyDict.keys. rewrite map_app. reflexivity. }
        assert (Hex : existsb (String.eqb (pos tag)) (PyDict.keys d) = false).
        { apply not_true_is_false. intros H. apply existsb_eqb_In in H.
          apply PyDictFacts.get_None_keys in G. contradiction. }
        rewrite K, Hex. simpl. rewrite <- app_assoc. simpl.
        rewrite filter_not_in_app. reflexivity.
    + rewrite count_tag_not_eligible by assumption. rewrite IH.
      unfold eligible_words. simpl. rewrite E. reflexivity.
Qed.

(** X2. The categories of [pos_counts] and of [pos_percentages] are listed
    in the order in which the counted words first show them. *)
Theorem categories_in_first_seen_order (tags : list POSTag) :
  exists st,
    get_pos_statistics tags = Ok st /\
    PyDict.keys (pos_counts st) = first_seen (map pos (eligible_words tags)) /\
    PyDict.keys (pos_percentages st) = first_seen (map pos (eligible_words tags)).
Proof.
  eexists. split; [apply get_pos_statistics_closed|]. simpl.
  rewrite keys_percentages_of.
  assert (K : PyDict.keys (fst (fold_left count_tag tags (PyDict.empty, 0))) =
              first_seen (map pos (eligible_words tags))).
  { rewrite count_loop_keys. simpl.
    apply forallb_filter_id. apply forallb_forall. reflexivity. }
  split; exact K.
Qed.

Section ShareBounds.
Local Open Scope Qc_scope.

Lemma Qc_of_nat_le (a b : nat) : (a <= b)%nat -> Qc_of_nat a <= Qc_of_nat b.
Proof.
  intros H. unfold Qcle, Qc_of_nat. cbn [this Q2Qc]. rewrite !Qred_correct.
  unfold Qle. simpl. lia.
Qed.

Lemma Qc_of_nat_pos (a : nat) : (0 < a)%nat -> Q2Qc 0 < Qc_of_nat a.
Proof.
  intros H. unfold Qclt, Qc_of_nat. cbn [this Q2Qc]. rewrite !Qred_correct.
  unfold Qlt. simpl. lia.
Qed.

Lemma Qcmult_pos (x y : Qc) : Q2Qc 0 < x -> Q2Qc 0 < y -> Q2Qc 0 < x * y.
Proof.
  intros Hx Hy. rewrite <- (Qcmult_0_l y). apply Qcmult_lt_compat_r; assumption.
Qed.

Lemma Qcinv_pos (x : Qc) : Q2Qc 0 < x -> Q2Qc 0 < / x.
Proof.
  intros Hx. apply Qcnot_le_lt. intros Hle.
  assert (H1 : / x * x <= Q2Qc 0 * x)
    by (apply Qcmult_le_compat_r; [assumption | apply Qclt_le_weak; assumption]).
  rewrite Qcmult_0_l, Qcmult_inv_l in H1 by (apply not_eq_sym, Qclt_not_eq; assumption).
  revert H1. unfold Qcle. simpl. unfold Qle. simpl. lia.
Qed.

Lemma share_pos (total count : nat) :
  (0 < count)%nat -> (0 < total)%nat -> Q2Qc 0 < share total count.
Proof.
  intros Hc Ht. unfold share, Qcdiv.
  repeat apply Qcmult_pos; auto using Qc_of_nat_pos, Qcinv_pos.
  apply Qc_of_nat_pos. lia.
Qed.

Lemma share_le_100 (total count : nat) :
  (count <= total)%nat -> (0 < total)%nat -> share total count <= Qc_of_nat 100.
Proof.
  intros Hc Ht. rewrite <- (share_all (total := total)) by lia.
  unfold share, Qcdiv. rewrite <- !Qcmult_assoc.
  apply Qcmult_le_compat_r; [apply Qc_of_nat_le; assumption|].
  apply Qclt_le_weak, Qcmult_pos; [apply Qcinv_pos|]; apply Qc_of_nat_pos; lia.
Qed.
End ShareBounds.

Lemma count_pos_le_words (p : string) (tags : list POSTag) :
  count_pos p tags <= List.length (eligible_words tags).
Proof. unfold count_pos. apply filter_length_le. Qed.

Lemma counted_get_Some seen d n p c :
  counted seen d n -> PyDict.get d p = Some c ->
  c = count_pos p seen /\ 0 < c /\ c <= n.
Proof.
  intros H G. rewrite (counted_get H) in G.
  destruct (count_pos p seen =? 0) eqn:E; [discriminate|].
  injection G as <-. apply Nat.eqb_neq in E.
  rewrite (counted_total H). pose proof (count_pos_le_words p seen). lia.
Qed.

(** X3. Every percentage returned by [get_pos_statistics] is positive and
    at most 100. *)
Theorem percentages_within_bounds (tags : list POSTag) :
  exists st,
    get_pos_statistics tags = Ok st /\
    forall p v, PyDict.get (pos_percentages st) p = Some v ->
                (Q2Qc 0 < v)%Qc /\ (v <= Qc_of_nat 100)%Qc.
Proof.
  eexists. split; [apply get_pos_statistics_closed|]. simpl.
  intros p v G. rewrite get_percentages_of in G.
  destruct (PyDict.get _ p) as [c|] eqn:Gc; [|discriminate].
  injection G as <-.
  destruct (@counted_get_Some _ _ _ _ _ (counted_all tags) Gc) as [_ [Hpos Hle]].
  split; [apply share_pos | apply share_le_100]; lia.
Qed.

Lemma length_le_sum_positive (d : PyDict.dict nat) :
  (forall k v, In (k, v) d -> 0 < v) -> List.length d <= sum_counts d.
Proof.
  unfold sum_counts, PyDict.values.
  induction d as [|[k v] d IH]; intros H; simpl; [lia|].
  assert (0 < v) by (apply (H k); left; reflexivity).
  assert (List.length d <= list_sum (map snd d))
    by (apply IH; intros k' v' Hin; apply (H k'); right; assumption).
  lia.
Qed.

Lemma get_of_In (V : Type) (d : PyDict.dict V) (k : string) (v : V) :
  NoDup (PyDict.keys d) -> In (k, v) d -> PyDict.get d k = Some v.
Proof.
  unfold PyDict.keys. induction d as [|[k' v'] d IH]; simpl; intros Hnd Hin; [tauto|].
  inversion Hnd as [|? ? Hni Hnd']; subst.
  destruct Hin as [[= -> ->]|Hin].
  - rewrite String.eqb_refl. reflexivity.
  - destruct (String.eqb_spec k' k) as [->|Hne]; [|apply IH; assumption].
    exfalso. apply Hni. apply in_map_iff. exists (k, v). auto.
Qed.

(** X4. There are never more categories than words: [unique_pos_tags] is at
    most [total_words], and the one is zero exactly when the other is. *)
Theorem categories_at_most_words (tags : list POSTag) :
  exists st,
    get_pos_statistics tags = Ok st /\
    unique_pos_tags st <= total_words st /\
    (unique_pos_tags st = 0 <-> total_words st = 0).
Proof.
  eexists. split; [apply get_pos_statistics_closed|]. simpl.
  pose proof (counted_all tags) as H.
  destruct (fold_left count_tag tags (PyDict.empty, 0)) as [d n]. simpl in *.
  assert (Hle : List.length d <= n).
  { rewrite <- (counted_sum H). apply length_le_sum_positive.
    intros k v Hin. apply (@get_of_In _ _ _ _ (counted_keys H)) in Hin.
    apply (@counted_get_Some _ _ _ _ _ H Hin). }
  split; [exact Hle|]. split.
  - intros H0. apply length_zero_iff_nil in H0. subst d.
    rewrite <- (counted_sum H). reflexivity.
  - intros ->. rewrite (counted_no_word H). reflexivity.
Qed.

Lemma count_loop_by_view (tags1 : list POSTag) : forall tags2 st,
  map stat_view tags1 = map stat_view tags2 ->
  fold_left count_tag tags1 st = fold_left count_tag tags2 st.
Proof.
  induction tags1 as [|t1 tags1 IH]; intros [|t2 tags2] st H;
    try discriminate; [reflexivity|].
  simpl in H. unfold stat_view at 1 2 in H. injection H as Hp Hs Hq Hrest.
  simpl.
  replace (count_tag st t2) with (count_tag st t1).
  - apply IH. assumption.
  - destruct st as [d n]. unfold count_tag. rewrite Hp, Hs, Hq. reflexivity.
Qed.

(** X5. The statistics of a text read only the category and the two flags
    of each tag: they are the same whether or not [tag_text] was asked for
    confidence scores, and whatever [spacy.explain] answers. *)
Theorem statistics_ignore_tagging_options
  (nlp : string -> Doc.t) (explain1 explain2 : string -> option string)
  (text : string) (confidence1 confidence2 : bool) :
  get_pos_statistics (tag_text nlp explain1 text confidence1) =
  get_pos_statistics (tag_text nlp explain2 text confidence2).
Proof.
  unfold get_pos_statistics.
  rewrite (count_loop_by_view (tag_text nlp explain1 text confidence1)
             (tag_text nlp explain2 text confidence2)).
  - reflexivity.
  - unfold tag_text. rewrite !map_map. reflexivity.
Qed.

Lemma get_default_counted seen d n p :
  counted seen d n -> PyDict.get_default d p 0 = count_pos p seen.
Proof.
  intros H. unfold PyDict.get_default. rewrite (counted_get H).
  destruct (count_pos p seen =? 0) eqn:E; [|reflexivity].
  apply Nat.eqb_eq in E. congruence.
Qed.

(** X6. The statistics add up over concatenation: the words, and the count
    of every category, of [tags1 ++ tags2] are the sums of those of [tags1]
    and of [tags2]. *)
Theorem statistics_of_concatenation (tags1 tags2 : list POSTag) :
  exists st1 st2 st,
    get_pos_statistics tags1 = Ok st1 /\
    get_pos_statistics tags2 = Ok st2 /\
    get_pos_statistics (tags1 ++ tags2) = Ok st /\
    total_words st = total_words st1 + total_words st2 /\
    forall p,
      PyDict.get_default (pos_counts st) p 0 =
      PyDict.get_default (pos_counts st1) p 0 +
      PyDict.get_default (pos_counts st2) p 0.
Proof.
  do 3 eexists.
  split; [apply get_pos_statistics_closed|].
  split; [apply get_pos_statistics_closed|].
  split; [apply get_pos_statistics_closed|]. simpl.
  pose proof (counted_all tags1) as H1. pose proof (counted_all tags2) as H2.
  pose proof (counted_all (tags1 ++ tags2)) as H. split.
  - rewrite (counted_total H), (counted_total H1), (counted_total H2).
    unfold eligible_words. rewrite filter_app, length_app. reflexivity.
  - intros p. rewrite (@get_default_counted _ _ _ p H),
      (@get_default_counted _ _ _ p H1), (@get_default_counted _ _ _ p H2).
    unfold count_pos, eligible_words. rewrite !filter_app, length_app. reflexivity.
Qed.

(** ** More on phrases and structure *)

Lemma filter_enumerate_snd (A : Type) (P : A -> bool) (l : list A) (k : nat) :
  map snd (filter (fun it => P (snd it)) (enumerate_from k l)) = filter P l.
Proof. rewrite <- filter_map_swap, enumerate_from_snd. reflexivity. Qed.

(** X7. [extract_phrases] returns one phrase per noun chunk and one per
    token tagged VERB, and every verb phrase spans one token of the
    document: [start < len(doc)] and [end = start + 1]. *)
Theorem phrases_count_and_spans (nlp : string -> Doc.t) (text : string) :
  exists phrases,
    extract_phrases nlp text = Ok phrases /\
    List.length phrases =
    List.length (Doc.noun_chunks (nlp text)) +
    List.length (filter is_VERB (Doc.tokens (nlp text))) /\
    forall ph, In ph phrases -> is_verb_phrase ph = true ->
               Phrase.start ph < Doc.len (nlp text) /\
               Phrase.end_ ph = Phrase.start ph + 1.
Proof.
  eexists. split; [apply extract_phrases_closed|]. split.
  - rewrite length_app, !length_map. f_equal.
    rewrite <- (filter_enumerate_snd is_VERB (Doc.tokens (nlp text)) 0).
    rewrite length_map. reflexivity.
  - intros ph Hin Hv. apply in_app_or in Hin. destruct Hin as [Hin|Hin].
    + apply in_map_iff in Hin. destruct Hin as [c [<- _]]. discriminate Hv.
    + apply in_map_iff in Hin. destruct Hin as [[j t] [<- Hin]].
      apply filter_In in Hin. destruct Hin as [Hin _].
      apply In_enumerate_from in Hin. destruct Hin as [_ Hn].
      rewrite Nat.sub_0_r in Hn. simpl. split; [|reflexivity].
      apply nth_error_Some. unfold Doc.len. congruence.
Qed.

Lemma first_root (l : list Token.t) : forall i r,
  nth_error l i = Some r -> is_root r = true ->
  (forall j t, j < i -> nth_error l j = Some t -> is_root t = false) ->
  exists rs, filter is_root l = r :: rs.
Proof.
  induction l as [|a l IH]; intros [|i] r Hn Hr Hfirst; simpl in *; try discriminate.
  - injection Hn as ->. rewrite Hr. eauto.
  - rewrite (Hfirst 0 a) by (simpl; auto; lia).
    apply (IH i r); auto.
    intros j t Hj Ht. apply (Hfirst (S j) t); [lia | exact Ht].
Qed.

(** X8. On a document in which every head is a token of the sequence, the
    root reported by [analyze_sentence_structure] is the first token
    labelled ROOT: its text and its category, whatever later tokens are
    labelled ROOT too (the token must have a non-empty text to count as
    present). *)
Theorem root_is_first_root_token
  (nlp : string -> Doc.t) (text : string) (i : nat) (r : Token.t) :
  heads_in_range (nlp text) = true ->
  nth_error (Doc.tokens (nlp text)) i = Some r ->
  is_root r = true ->
  (forall j t, j < i -> nth_error (Doc.tokens (nlp text)) j = Some t ->
               is_root t = false) ->
  Token.text r <> "" ->
  exists s,
    analyze_sentence_structure nlp text = Ok s /\
    root s = Some (Token.text r) /\
    root_pos s = Some (Token.pos_ r).
Proof.
  intros Hh Hn Hr Hfirst Htext.
  destruct (dependencies_in_range _ Hh) as [deps [E _]].
  destruct (@first_root _ _ _ Hn Hr Hfirst) as [rs F].
  unfold analyze_sentence_structure. rewrite E, F.
  assert (T : Doc.truthy (nlp text) = true).
  { unfold Doc.truthy, Doc.len. destruct (Doc.tokens (nlp text)); [|reflexivity].
    destruct i; discriminate Hn. }
  assert (Tr : token_truthy r = true).
  { unfold token_truthy. destruct (Token.text r); [congruence | reflexivity]. }
  rewrite T. simpl. rewrite Tr. eexists. split; [reflexivity|]. simpl. auto.
Qed.

Lemma root_is_first_root_token_witness :
  exists s,
    analyze_sentence_structure (fun _ => Samples.he_has_been_seen)
      "He has been seen, he left" = Ok s /\
    root s = Some "seen" /\ root_pos s = Some "VERB".
Proof.
  apply (@root_is_first_root_token (fun _ => Samples.he_has_been_seen)
           "He has been seen, he left" 3
           (Samples.tok "seen" "VERB" "ROOT" 3 false false)).
  - reflexivity.
  - reflexivity.
  - reflexivity.
  - intros [|[|[|j]]] t Hj Ht; try lia; simpl in Ht; injection Ht as <-; reflexivity.
  - discriminate.
Defined.

Lemma mapM_nth (A B : Type) (f : A -> result B) (l : list A) : forall bs,
  mapM f l = Ok bs ->
  forall i a, nth_error l i = Some a ->
              exists b, f a = Ok b /\ nth_error bs i = Some b.
Proof.
  induction l as [|a0 l IH]; intros bs H i a Hn.
  - destruct i; discriminate Hn.
  - simpl in H. destruct (f a0) as [b0|] eqn:F0; [|discriminate H].
    simpl in H. destruct (mapM f l) as [bs0|] eqn:M; [|discriminate H].
    simpl in H. injection H as <-. destruct i as [|i]; simpl in *.
    + injection Hn as <-. eauto.
    + apply (IH bs0 eq_refl i a Hn).
Qed.

(** X9. On a parsed document [analyze_sentence_structure] returns one
    dependency record per token, in order; the record of a token carries the
    token's text, label and category, and the text of the token its head
    points to. *)
Theorem dependencies_follow_heads (nlp : string -> Doc.t) (text : string) :
  parsed (nlp text) = true ->
  exists s,
    analyze_sentence_structure nlp text = Ok s /\
    List.length (dependencies s) = List.length (Doc.tokens (nlp text)) /\
    forall i token,
      nth_error (Doc.tokens (nlp text)) i = Some token ->
      exists h,
        nth_error (Doc.tokens (nlp text)) (Token.head token) = Some h /\
        nth_error (dependencies s) i =
        Some {| Dependency.word := Token.text token;
                Dependency.dep := Token.dep_ token;
                Dependency.head := Token.text h;
                Dependency.pos := Token.pos_ token |}.
Proof.
  unfold parsed. intros H. apply andb_prop in H. destruct H as [Hr Hh].
  destruct (dependencies_in_range _ Hh) as [deps [E L]].
  assert (D : forall i token,
             nth_error (Doc.tokens (nlp text)) i = Some token ->
             exists h,
               nth_error (Doc.tokens (nlp text)) (Token.head token) = Some h /\
               nth_error deps i =
               Some {| Dependency.word := Token.text token;
                       Dependency.dep := Token.dep_ token;
                       Dependency.head := Token.text h;
                       Dependency.pos := Token.pos_ token |}).
  { intros i token Hn. destruct (@mapM_nth _ _ _ _ _ E _ _ Hn) as [b [Fb Hb]].
    unfold dependency, Doc.index, py_index in Fb.
    destruct (nth_error (Doc.tokens (nlp text)) (Token.head token)) as [h|];
      [|discriminate Fb].
    simpl in Fb. injection Fb as <-. exists h. auto. }
  unfold analyze_sentence_structure. rewrite E.
  destruct (Doc.truthy (nlp text)) eqn:T; simpl in Hr.
  - destruct (filter_root_cons _ Hr) as [r [rs F]]. rewrite F. simpl.
    eexists. split; [reflexivity|]. simpl. auto.
  - simpl. eexists. split; [reflexivity|]. simpl. auto.
Qed.

Lemma dependencies_follow_heads_witness :
  exists s,
    analyze_sentence_structure (fun _ => Samples.hello_world) "Hello, world" = Ok s /\
    nth_error (dependencies s) 1 = Some (Dependency.mk "," "punct" "world" "PUNCT").
Proof.
  destruct (@dependencies_follow_heads (fun _ => Samples.hello_world) "Hello, world" eq_refl)
    as [s [Hs [_ Hd]]].
  exists s. split; [exact Hs|].
  destruct (Hd 1 (Samples.tok "," "PUNCT" "punct" 2 true false) eq_refl) as [h [Hh Hr]].
  simpl in Hh. injection Hh as <-. exact Hr.
Defined.

(** ** Loading the pipeline *)

(** X10. After a successful [_load_model] the tagger holds a pipeline, so
    [tag_text] passes its guard and tags with it; the pipeline is the model
    of the tagger's language under the language it had, or, when that model
    is not installed, the English model under the language "en". *)
Theorem load_leaves_a_pipeline
  (spacy_load : string -> outcome Language) (self self' : Tagger.t)
  (explain : string -> option string) (text : string) (include_confidence : bool) :
  _load_model spacy_load self = Returns self' ->
  exists nlp,
    Tagger.nlp self' = Some nlp /\
    tag_text_method self' explain text include_confidence =
    Returns (tag_text nlp explain text include_confidence) /\
    ((Tagger.language self' = Tagger.language self /\
      spacy_load (PyDict.get_default supported_languages (Tagger.language self)
                    "en_core_web_sm") = Returns nlp) \/
     (Tagger.language self' = "en" /\
      spacy_load (PyDict.get_default supported_languages (Tagger.language self)
                    "en_core_web_sm") = Throws OSError /\
      spacy_load "en_core_web_sm" = Returns nlp)).
Proof.
  unfold _load_model. intros H.
  destruct (spacy_load (PyDict.get_default supported_languages
                          (Tagger.language self) "en_core_web_sm"))
    as [nlp|e] eqn:L.
  - injection H as <-. exists nlp. simpl. unfold tag_text_method. simpl. auto.
  - destruct e; try discriminate H.
    destruct (spacy_load "en_core_web_sm") as [nlp|e] eqn:L2; [|discriminate H].
    simpl in H. injection H as <-. exists nlp. unfold tag_text_method. simpl.
    split; [reflexivity|]. split; [reflexivity|]. right. auto.
Qed.

Lemma load_leaves_a_pipeline_witness :
  exists nlp,
    Tagger.nlp (Tagger.mk "en" (Some Installed.english)) = Some nlp /\
    tag_text_method (Tagger.mk "en" (Some Installed.english))
      Samples.no_explain "Hallo, Welt" true =
    Returns (tag_text nlp Samples.no_explain "Hallo, Welt" true).
Proof.
  destruct (@load_leaves_a_pipeline Installed.only_english
              (Tagger.mk "de" None) (Tagger.mk "en" (Some Installed.english))
              Samples.no_explain "Hallo, Welt" true eq_refl)
    as [nlp [H1 [H2 _]]].
  exists nlp. split; assumption.
Defined.

(** X11. With the English model installed, a language code outside
    [supported_languages] gets the English pipeline and keeps its own
    label, whereas a supported language whose model is not installed gets the
    English pipeline and is relabelled "en". *)
Theorem fallback_labels
  (spacy_load : string -> outcome Language) (english : Language) (self : Tagger.t) :
  spacy_load "en_core_web_sm" = Returns english ->
  (PyDict.get supported_languages (Tagger.language self) = None ->
   _load_model spacy_load self =
   Returns {| Tagger.language := Tagger.language self; Tagger.nlp := Some english |}) /\
  (forall name,
     PyDict.get supported_languages (Tagger.language self) = Some name ->
     spacy_load name = Throws OSError ->
     _load_model spacy_load self =
     Returns {| Tagger.language := "en"; Tagger.nlp := Some english |}).
Proof.
  intros He. unfold _load_model, PyDict.get_default. split.
  - intros ->. rewrite He. reflexivity.
  - intros name -> Hn. rewrite Hn, He. reflexivity.
Qed.

Lemma fallback_labels_witness :
  _load_model Installed.only_english (Tagger.mk "tlh" None) =
  Returns (Tagger.mk "tlh" (Some Installed.english)) /\
  _load_model Installed.only_english (Tagger.mk "de" None) =
  Returns (Tagger.mk "en" (Some Installed.english)).
Proof.
  split.
  - apply (fallback_labels Installed.only_english (Tagger.mk "tlh" None) eq_refl).
    reflexivity.
  - apply (proj2 (fallback_labels Installed.only_english (Tagger.mk "de" None) eq_refl)
             "de_core_news_sm"); reflexivity.
Defined.

(** X12. [_load_model] is idempotent: loading again a tagger that has just
    been loaded returns it unchanged. *)
Theorem load_twice
  (spacy_load : string -> outcome Language) (self self' : Tagger.t) :
  _load_model spacy_load self = Returns self' ->
  _load_model spacy_load self' = Returns self'.
Proof.
  unfold _load_model. intros H.
  destruct (spacy_load (PyDict.get_default supported_languages
                          (Tagger.language self) "en_core_web_sm"))
    as [nlp|e] eqn:L.
  - injection H as <-. simpl. rewrite L. reflexivity.
  - destruct e; try discriminate H.
    destruct (spacy_load "en_core_web_sm") as [nlp|e] eqn:L2; [|discriminate H].
    simpl in H. injection H as <-. simpl.
    change (PyDict.get_default supported_languages "en" "en_core_web_sm")
      with "en_core_web_sm".
    rewrite L2. reflexivity.
Qed.

Lemma load_twice_witness :
  _load_model Installed.only_english (Tagger.mk "en" (Some Installed.english)) =
  Returns (Tagger.mk "en" (Some Installed.english)).
Proof.
  apply (@load_twice Installed.only_english (Tagger.mk "de" None)). reflexivity.
Defined.

(** X13. The constructor fails only for want of the English model: if a
    missing model is all [spacy.load] ever raises and the English model is
    installed, [AdvancedPOSTagger(language)] is built for every language
    code; with no model installed it raises [OSError]. *)
Theorem constructor_needs_english
  (spacy_load : string -> outcome Language) (language : string) :
  (forall name e, spacy_load name = Throws e -> e = OSError) ->
  (forall english,
     spacy_load "en_core_web_sm" = Returns english ->
     exists self, __init__ spacy_load language = Returns self) /\
  ((forall name, spacy_load name = Throws OSError) ->
   __init__ spacy_load language = Throws OSError).
Proof.
  intros Honly. unfold __init__, _load_model. simpl. split.
  - intros english He.
    destruct (spacy_load (PyDict.get_default supported_languages language
                            "en_core_web_sm")) as [nlp|e] eqn:L.
    + eauto.
    + rewrite (Honly _ _ L), He. simpl. eauto.
  - intros Hnone. rewrite !Hnone. reflexivity.
Qed.

Lemma constructor_needs_english_witness :
  (exists self, __init__ Installed.only_english "fr" = Returns self) /\
  __init__ Installed.nothing "fr" = Throws OSError.
Proof.
  split.
  - destruct (@constructor_needs_english Installed.only_english "fr") as [H _].
    + intros name e. unfold Installed.only_english.
      destruct (String.eqb name "en_core_web_sm"); [discriminate|].
      intros [= <-]. reflexivity.
    + apply (H Installed.english). reflexivity.
  - destruct (@constructor_needs_english Installed.nothing "fr") as [_ H].
    + intros name e [= <-]. reflexivity.
    + apply H. reflexivity.
Defined.

(** ** The first implementation *)

Lemma percentages_counted seen d n :
  counted seen d n ->
  exists ps, mapM (percentage n) (PyDict.items d) = Ok ps /\
             PyDict.of_items ps = percentages_of n d.
Proof.
  intros H. destruct (Nat.eq_dec n 0) as [->|Hn].
  - rewrite (counted_no_word H). exists []. split; reflexivity.
  - exists (map (fun kc => (fst kc, share n (snd kc))) d). split.
    + unfold PyDict.items. apply mapM_total. intros. apply percentage_Ok. assumption.
    + unfold percentages_of. apply PyDictFacts.of_items_NoDup.
      rewrite map_map. simpl. apply (counted_keys H).
Qed.

Lemma enhanced_loop (explain : string -> option string) (tokens : list Token.t) :
  forall (tags : list POSTag) (acc : list TagInfo.t) (d : PyDict.dict nat) (n : nat),
    map stat_view tags =
    map (fun token => (Token.pos_ token, Token.is_space token, Token.is_punct token))
        tokens ->
    snd (fold_left (enhanced_token explain) tokens (acc, d)) =
    fst (fold_left count_tag tags (d, n)) /\
    map TagInfo.word (fst (fold_left (enhanced_token explain) tokens (acc, d))) =
    map TagInfo.word acc ++ map Token.text tokens.
Proof.
  induction tokens as [|token tokens IH]; intros [|tag tags] acc d n H;
    try discriminate.
  - simpl. rewrite app_nil_r. auto.
  - simpl in H. unfold stat_view at 1 in H. injection H as Hp Hs Hq Hrest.
    cbn [fold_left]. unfold enhanced_token at 2 4, count_tag at 2.
    rewrite Hp, Hs, Hq.
    destruct (negb (Token.is_space token) && negb (Token.is_punct token)).
    + destruct (IH tags (acc ++ [TagInfo.mk (Token.text token) (Token.pos_ token)
                                   (Token.tag_ token) (Token.lemma_ token)
                                   (Token.is_punct token) (Token.is_space token)
                                   (Token.is_stop token) (Token.dep_ token)
                                   (explain (Token.pos_ token))])
                  (PyDict.set d (Token.pos_ token)
                     (PyDict.get_default d (Token.pos_ token) 0 + 1))
                  (n + 1) Hrest) as [E1 E2].
      split; [exact E1|]. rewrite E2, map_app, <- app_assoc. reflexivity.
    + destruct (IH tags (acc ++ [TagInfo.mk (Token.text token) (Token.pos_ token)
                                   (Token.tag_ token) (Token.lemma_ token)
                                   (Token.is_punct token) (Token.is_space token)
                                   (Token.is_stop token) (Token.dep_ token)
                                   (explain (Token.pos_ token))])
                  d n Hrest) as [E1 E2].
      split; [exact E1|]. rewrite E2, map_app, <- app_assoc. reflexivity.
Qed.

(** X14. The first implementation agrees with the tagger: whenever
    [enhanced_pos_tagging] gets a pipeline (the model of the language, else
    the English one), it returns the results, never an error, its tags name
    the tokens in order, and its statistics are those [get_pos_statistics]
    computes from [tag_text] with the same pipeline. *)
Theorem first_implementation_agrees
  (spacy_load : string -> outcome Language) (explain : string -> option string)
  (text language : string) (nlp : Language) :
  enhanced_load spacy_load language = Returns nlp ->
  exists tags st,
    enhanced_pos_tagging spacy_load explain text language =
    Enhanced text language tags st /\
    get_pos_statistics (tag_text nlp explain text true) = Ok st /\
    map TagInfo.word tags = map Token.text (Doc.tokens (nlp text)).
Proof.
  intros L. unfold enhanced_pos_tagging. rewrite L. simpl.
  pose proof (counted_all (tag_text nlp explain text true)) as C.
  destruct (@enhanced_loop explain (Doc.tokens (nlp text))
              (tag_text nlp explain text true) [] PyDict.empty 0) as [E1 E2].
  { unfold tag_text. rewrite map_map. reflexivity. }
  rewrite get_pos_statistics_closed.
  destruct (fold_left (enhanced_token explain) (Doc.tokens (nlp text))
              ([], PyDict.empty)) as [tags d].
  simpl in E1, E2. rewrite <- E1 in C.
  fold (sum_counts d). rewrite (counted_sum C).
  destruct (percentages_counted C) as [ps [M O]].
  rewrite M. simpl. rewrite O. exists tags. eexists.
  split; [reflexivity|]. split; [|exact E2].
  rewrite <- E1. reflexivity.
Qed.

Lemma first_implementation_agrees_witness :
  exists tags st,
    enhanced_pos_tagging Installed.only_english Samples.no_explain "Hallo, Welt" "de" =
    Enhanced "Hallo, Welt" "de" tags st /\
    get_pos_statistics (tag_text Installed.english Samples.no_explain "Hallo, Welt" true)
    = Ok st /\
    map TagInfo.word tags = ["Hello"; ","; "world"].
Proof.
  apply (@first_implementation_agrees Installed.only_english Samples.no_explain
           "Hallo, Welt" "de" Installed.english).
  reflexivity.
Defined.

(** ** The charts *)

Lemma chart_count_loop (tags : list POSTag) : forall d n,
  fold_left chart_count tags d = fst (fold_left count_tag tags (d, n)).
Proof.
  induction tags as [|tag tags IH]; intros d n; [reflexivity|].
  cbn [fold_left]. unfold chart_count at 2, count_tag at 2.
  destruct (negb (is_space tag) && negb (is_punct tag)); apply IH.
Qed.

(** X15. The pie chart shows the statistics: its labels and values are the
    categories and counts of [get_pos_statistics], in the same order, and
    the values add up to [total_words]. *)
Theorem pie_chart_shows_the_statistics (tags : list POSTag) :
  exists st,
    get_pos_statistics tags = Ok st /\
    Pie.labels (create_pos_distribution_chart tags) = PyDict.keys (pos_counts st) /\
    Pie.values (create_pos_distribution_chart tags) = PyDict.values (pos_counts st) /\
    list_sum (Pie.values (create_pos_distribution_chart tags)) = total_words st.
Proof.
  eexists. split; [apply get_pos_statistics_closed|].
  unfold create_pos_distribution_chart. simpl.
  rewrite (chart_count_loop tags PyDict.empty 0).
  repeat split. apply (counted_sum (counted_all tags)).
Qed.

Lemma insert_by_count_perm (x : string * nat) (l : list (string * nat)) :
  Permutation (insert_by_count x l) (x :: l).
Proof.
  induction l as [|y l IH]; simpl; [apply Permutation_refl|].
  destruct (snd y <=? snd x); [apply Permutation_refl|].
  eapply Permutation_trans; [apply perm_skip, IH | apply perm_swap].
Qed.

Lemma insert_by_count_sorted (x : string * nat) (l : list (string * nat)) :
  StronglySorted by_count_desc l -> StronglySorted by_count_desc (insert_by_count x l).
Proof.
  induction l as [|y l IH]; intros Hs; simpl.
  - constructor; constructor.
  - inversion Hs as [|? ? Hs' Hall]; subst.
    destruct (snd y <=? snd x) eqn:E.
    + apply Nat.leb_le in E. constructor; [assumption|].
      constructor; [exact E|].
      eapply Forall_impl; [|exact Hall]. unfold by_count_desc. intros; lia.
    + apply Nat.leb_gt in E. constructor; [apply IH; assumption|].
      eapply Permutation_Forall; [apply Permutation_sym, insert_by_count_perm|].
      constructor; [unfold by_count_desc; lia | assumption].
Qed.

Lemma insert_by_count_stable (c : nat) (x : string * nat) (l : list (string * nat)) :
  filter (fun kv => snd kv =? c) (insert_by_count x l) =
  filter (fun kv => snd kv =? c) (x :: l).
Proof.
  induction l as [|y l IH]; [reflexivity|].
  cbn [insert_by_count]. destruct (snd y <=? snd x) eqn:E; [reflexivity|].
  apply Nat.leb_gt in E. cbn [filter] in *. rewrite IH.
  destruct (snd x =? c) eqn:Ex; [|reflexivity].
  apply Nat.eqb_eq in Ex.
  replace (snd y =? c) with false by (symmetry; apply Nat.eqb_neq; lia).
  reflexivity.
Qed.

Lemma sorted_by_count_perm (l : list (string * nat)) : Permutation (sorted_by_count l) l.
Proof.
  induction l as [|x l IH]; simpl; [constructor|].
  eapply Permutation_trans; [apply insert_by_count_perm | apply perm_skip, IH].
Qed.

Lemma sorted_by_count_sorted (l : list (string * nat)) :
  StronglySorted by_count_desc (sorted_by_count l).
Proof.
  induction l as [|x l IH]; simpl; [constructor | apply insert_by_count_sorted, IH].
Qed.

Lemma sorted_by_count_stable (c : nat) (l : list (string * nat)) :
  filter (fun kv => snd kv =? c) (sorted_by_count l) = filter (fun kv => snd kv =? c) l.
Proof.
  induction l as [|x l IH]; [reflexivity|].
  cbn [sorted_by_count fold_right]. rewrite insert_by_count_stable.
  cbn [filter]. fold (sorted_by_count l). rewrite IH. reflexivity.
Qed.

Lemma combine_fst_snd (A B : Type) (l : list (A * B)) :
  combine (map fst l) (map snd l) = l.
Proof. induction l as [|[a b] l IH]; simpl; [|rewrite IH]; reflexivity. Qed.

(** X16. The bars of the bar chart are the categories of the statistics
    with their counts, rearranged by decreasing count; categories of equal
    count keep the order in which the statistics list them. *)
Theorem bar_chart_is_sorted (tags : list POSTag) :
  exists st,
    get_pos_statistics tags = Ok st /\
    let bars := combine (Bar.x (create_pos_bar_chart tags))
                        (Bar.y (create_pos_bar_chart tags)) in
    List.length (Bar.x (create_pos_bar_chart tags)) =
    List.length (Bar.y (create_pos_bar_chart tags)) /\
    Permutation bars (PyDict.items (pos_counts st)) /\
    StronglySorted ge (Bar.y (create_pos_bar_chart tags)) /\
    forall c,
      filter (fun kv => snd kv =? c) bars =
      filter (fun kv => snd kv =? c) (PyDict.items (pos_counts st)).
Proof.
  eexists. split; [apply get_pos_statistics_closed|].
  unfold create_pos_bar_chart. simpl.
  rewrite (chart_count_loop tags PyDict.empty 0), combine_fst_snd, !length_map.
  unfold PyDict.items.
  split; [reflexivity|]. split; [apply sorted_by_count_perm|].
  split; [|intros c; apply sorted_by_count_stable].
  pose proof (sorted_by_count_sorted
                (fst (fold_left count_tag tags (PyDict.empty, 0)))) as H.
  induction H as [|a l Hs IH Hall]; simpl; constructor; [exact IH|].
  apply Forall_map. eapply Forall_impl; [|exact Hall].
  unfold by_count_desc, ge. auto.
Qed.

(** The result of a stable sort is determined: two lists sorted by
    decreasing count that list the items of each count in the same order
    are equal.  So [sorted_by_count] is what any stable sort returns. *)
Lemma stable_sort_unique (l1 : list (string * nat)) : forall l2,
  StronglySorted by_count_desc l1 -> StronglySorted by_count_desc l2 ->
  (forall c, filter (fun kv => snd kv =? c) l1 = filter (fun kv => snd kv =? c) l2) ->
  l1 = l2.
Proof.
  induction l1 as [|a l1 IH]; intros l2 S1 S2 Hf.
  - destruct l2 as [|b l2]; [reflexivity|].
    specialize (Hf (snd b)). simpl in Hf. rewrite Nat.eqb_refl in Hf. discriminate.
  - destruct l2 as [|b l2].
    { specialize (Hf (snd a)). simpl in Hf. rewrite Nat.eqb_refl in Hf. discriminate. }
    inversion S1 as [|? ? S1' A1]; subst. inversion S2 as [|? ? S2' A2]; subst.
    assert (Hab : a = b).
    { pose proof (Hf (snd a)) as Ha. pose proof (Hf (snd b)) as Hb.
      simpl in Ha, Hb. rewrite Nat.eqb_refl in Ha, Hb.
      destruct (snd b =? snd a) eqn:E.
      - injection Ha as Ha _. exact Ha.
      - apply Nat.eqb_neq in E.
        replace (snd a =? snd b) with false in Hb
          by (symmetry; apply Nat.eqb_neq; congruence).
        assert (Ina : In a l2).
        { assert (H : In a (filter (fun kv => snd kv =? snd a) l2))
            by (rewrite <- Ha; left; reflexivity).
          apply filter_In in H. tauto. }
        assert (Inb : In b l1).
        { assert (H : In b (filter (fun kv => snd kv =? snd b) l1))
            by (rewrite Hb; left; reflexivity).
          apply filter_In in H. tauto. }
        rewrite Forall_forall in A1, A2.
        specialize (A1 b Inb). specialize (A2 a Ina).
        unfold by_count_desc in A1, A2. lia. }
    subst b. f_equal. apply IH; try assumption.
    intros c. specialize (Hf c). simpl in Hf.
    destruct (snd a =? c); [injection Hf as Hf|]; exact Hf.
Qed.

Section AppendAt.
Variable V : Type.
Implicit Types (d : PyDict.dict (list V)) (k : string) (v : V).

Lemma get_append_at_eq d k v :
  PyDict.get (append_at d k v) k = Some (PyDict.get_default d k [] ++ [v]).
Proof.
  unfold append_at. rewrite PyDictFacts.get_set_eq. f_equal. f_equal.
  unfold PyDict.get_default. destruct (PyDict.get d k) eqn:G.
  - rewrite G. reflexivity.
  - rewrite PyDictFacts.get_set_eq. reflexivity.
Qed.

Lemma get_append_at_ne d k k' v :
  k <> k' -> PyDict.get (append_at d k v) k' = PyDict.get d k'.
Proof.
  intros Hne. unfold append_at. rewrite PyDictFacts.get_set_ne by assumption.
  destruct (PyDict.get d k); [reflexivity|].
  apply PyDictFacts.get_set_ne. assumption.
Qed.

Lemma NoDup_keys_append_at d k v :
  NoDup (PyDict.keys d) -> NoDup (PyDict.keys (append_at d k v)).
Proof.
  intros H. unfold append_at. apply PyDictFacts.NoDup_keys_set.
  destruct (PyDict.get d k); [assumption|].
  apply PyDictFacts.NoDup_keys_set. assumption.
Qed.

Lemma keys_set_cases (W : Type) (e : PyDict.dict W) k (w : W) :
  PyDict.keys (PyDict.set e k w) =
  if existsb (String.eqb k) (PyDict.keys e) then PyDict.keys e
  else PyDict.keys e ++ [k].
Proof.
  destruct (PyDict.get e k) as [w0|] eqn:G.
  - erewrite PyDictFacts.keys_set_present by eassumption.
    replace (existsb (String.eqb k) (PyDict.keys e)) with true; [reflexivity|].
    symmetry. apply existsb_eqb_In.
    destruct (in_dec string_dec k (PyDict.keys e)) as [H|H]; [assumption|].
    apply PyDictFacts.get_None_keys in H. congruence.
  - rewrite PyDictFacts.set_fresh by assumption.
    replace (existsb (String.eqb k) (PyDict.keys e)) with false.
    + unfold PyDict.keys. rewrite map_app. reflexivity.
    + symmetry. apply not_true_is_false. intros H. apply existsb_eqb_In in H.
      apply PyDictFacts.get_None_keys in G. contradiction.
Qed.

Lemma keys_append_at d k v :
  PyDict.keys (append_at d k v) =
  if existsb (String.eqb k) (PyDict.keys d) then PyDict.keys d
  else PyDict.keys d ++ [k].
Proof.
  unfold append_at. rewrite keys_set_cases.
  destruct (PyDict.get d k) as [l|] eqn:G; [reflexivity|].
  rewrite keys_set_cases.
  assert (E : existsb (String.eqb k) (PyDict.keys d) = false).
  { apply not_true_is_false. intros H. apply existsb_eqb_In in H.
    apply PyDictFacts.get_None_keys in G. contradiction. }
  rewrite E, existsb_app. simpl. rewrite String.eqb_refl, orb_true_r. reflexivity.
Qed.
End AppendAt.

(** The keys after a loop that touches, for some of the tags, the entry of
    their category: the keys before, then the fresh categories as they
    come. *)
Lemma touched_keys (V : Type) (step : PyDict.dict V -> POSTag -> PyDict.dict V)
  (touch : POSTag -> bool) :
  (forall d tag, touch tag = true ->
     PyDict.keys (step d tag) =
     if existsb (String.eqb (pos tag)) (PyDict.keys d) then PyDict.keys d
     else PyDict.keys d ++ [pos tag]) ->
  (forall d tag, touch tag = false -> step d tag = d) ->
  forall tags d,
    PyDict.keys (fold_left step tags d) =
    PyDict.keys d ++
    filter (fun y => negb (existsb (String.eqb y) (PyDict.keys d)))
           (first_seen (map pos (filter touch tags))).
Proof.
  intros Hyes Hno. induction tags as [|tag tags IH]; intros d.
  - simpl. rewrite app_nil_r. reflexivity.
  - cbn [fold_left filter]. rewrite IH. destruct (touch tag) eqn:T.
    + rewrite Hyes by assumption. cbn [map first_seen filter].
      destruct (existsb (String.eqb (pos tag)) (PyDict.keys d)) eqn:E; simpl.
      * rewrite filter_known_key by (apply existsb_eqb_In; assumption).
        reflexivity.
      * rewrite <- app_assoc. simpl. rewrite filter_not_in_app. reflexivity.
    + rewrite Hno by assumption. reflexivity.
Qed.

Lemma In_get (V : Type) (d : PyDict.dict V) (k : string) (v : V) :
  PyDict.get d k = Some v -> In (k, v) d.
Proof.
  induction d as [|[k' v'] d IH]; simpl; [discriminate|].
  destruct (String.eqb_spec k' k) as [->|Hne].
  - intros [= ->]. left. reflexivity.
  - intros H. right. apply IH. assumption.
Qed.

(** What the grouping loop keeps true: distinct categories, and for each a
    non-empty list of scores that all satisfy [Q]. *)
Lemma grouped_scores (Q : Qc -> Prop) (tags : list POSTag) :
  (forall tag c, In tag tags -> confidence_truthy tag = Some c -> Q c) ->
  forall d,
    NoDup (PyDict.keys d) ->
    (forall k l, PyDict.get d k = Some l -> l <> [] /\ Forall Q l) ->
    NoDup (PyDict.keys (fold_left collect_confidence tags d)) /\
    (forall k l, PyDict.get (fold_left collect_confidence tags d) k = Some l ->
                 l <> [] /\ Forall Q l).
Proof.
  induction tags as [|tag tags IH]; intros HQ d Hnd Hd; [simpl; auto|].
  cbn [fold_left]. apply IH.
  - intros t c Hin. apply HQ. right. assumption.
  - unfold collect_confidence.
    destruct (negb (is_space tag) && negb (is_punct tag)); [|assumption].
    destruct (confidence_truthy tag); [|assumption].
    apply NoDup_keys_append_at. assumption.
  - unfold collect_confidence.
    destruct (negb (is_space tag) && negb (is_punct tag)); [|assumption].
    destruct (confidence_truthy tag) as [c|] eqn:C; [|assumption].
    intros k l G. destruct (string_dec (pos tag) k) as [<-|Hne].
    + rewrite get_append_at_eq in G. injection G as <-. split.
      * intros H. apply app_eq_nil in H. destruct H as [_ H]. discriminate.
      * apply Forall_app. split.
        -- unfold PyDict.get_default.
           destruct (PyDict.get d (pos tag)) as [l0|] eqn:G0; [|constructor].
           apply (Hd _ _ G0).
        -- constructor; [|constructor]. apply (HQ tag c); [left; reflexivity | exact C].
    + rewrite get_append_at_ne in G by assumption. apply (Hd _ _ G).
Qed.

Lemma mapM_average (d : PyDict.dict (list Qc)) :
  (forall k l, In (k, l) d -> l <> []) ->
  mapM average (PyDict.items d) =
  Ok (map (fun kl => (fst kl, (py_sum (snd kl) / Qc_of_nat (List.length (snd kl)))%Qc)) d).
Proof.
  intros H. unfold PyDict.items. apply mapM_total. intros [k l] Hin.
  unfold average, py_fdiv. destruct l as [|c l]; [exfalso; apply (H k []); auto|].
  reflexivity.
Qed.

Lemma heatmap_closed (tags : list POSTag) :
  let d := fold_left collect_confidence tags PyDict.empty in
  let averages :=
    map (fun kl => (fst kl, (py_sum (snd kl) / Qc_of_nat (List.length (snd kl)))%Qc)) d in
  create_confidence_heatmap tags =
  Ok {| Heatmap.x := PyDict.keys d; Heatmap.z := map snd averages |}.
Proof.
  intros d averages.
  destruct (@grouped_scores (fun _ => True) tags (fun _ _ _ _ => I) PyDict.empty)
    as [Hnd Hne].
  { constructor. }
  { intros k l G. discriminate G. }
  fold d in Hnd, Hne. unfold create_confidence_heatmap. fold d.
  rewrite mapM_average.
  - simpl. rewrite PyDictFacts.of_items_NoDup.
    + unfold PyDict.keys, PyDict.values. rewrite map_map. reflexivity.
    + rewrite map_map. exact Hnd.
  - intros k l Hin. apply (@get_of_In _ _ _ _ Hnd) in Hin. apply (Hne _ _ Hin).
Qed.

(** X17. [create_confidence_heatmap] never divides by zero: it returns a
    heatmap for every sequence of tags, with one average per column, and the
    columns are the categories of the words that carry a confidence other
    than [None] and [0.0], in the order of their first such word. *)
Theorem heatmap_never_divides_by_zero (tags : list POSTag) :
  exists h,
    create_confidence_heatmap tags = Ok h /\
    List.length (Heatmap.z h) = List.length (Heatmap.x h) /\
    Heatmap.x h = first_seen (map pos (filter scored tags)).
Proof.
  eexists. split; [apply heatmap_closed|]. simpl. split.
  - unfold PyDict.keys. rewrite !length_map. reflexivity.
  - rewrite (touched_keys collect_confidence scored).
    + simpl. apply forallb_filter_id, forallb_forall. reflexivity.
    + intros d tag T. unfold scored in T. unfold collect_confidence.
      destruct (negb (is_space tag) && negb (is_punct tag)); [|discriminate].
      destruct (confidence_truthy tag); [|discriminate]. apply keys_append_at.
    + intros d tag T. unfold scored in T. unfold collect_confidence.
      destruct (negb (is_space tag) && negb (is_punct tag)); [|reflexivity].
      destruct (confidence_truthy tag); [discriminate | reflexivity].
Qed.

Section Averages.
Local Open Scope Qc_scope.




End Averages.



(** ** The dependency tree *)

Lemma tree_loop (its : list (nat * POSTag)) : forall nodes edges,
  (forallb (fun it => is_space (snd it)) its = true ->
   fold_left tree_step its (nodes, edges) = (nodes, edges)) /\
  (nodes <> [] \/ forallb (fun it => is_space (snd it)) its = false ->
   fst (fold_left tree_step its (nodes, edges)) <> []).
Proof.
  induction its as [|[i tag] its IH]; intros nodes edges.
  - simpl. split; [reflexivity|]. intros [H|H]; [assumption | discriminate].
  - cbn [fold_left forallb snd]. unfold tree_step at 2 4.
    destruct (is_space tag) eqn:S; simpl.
    + apply IH.
    + split; [discriminate|]. intros _.
      destruct (negb (String.eqb (dep tag) "ROOT")); apply IH; left;
        intros H; apply app_eq_nil in H; destruct H as [_ H]; discriminate.
Qed.

Lemma forallb_enumerate_snd (A : Type) (P : A -> bool) (l : list A) : forall k,
  forallb (fun it => P (snd it)) (enumerate_from k l) = forallb P l.
Proof. induction l as [|a l IH]; intros k; simpl; [|rewrite IH]; reflexivity. Qed.

Lemma edge_trace_throws (nodes : list Node.t) (edge : nat * nat) :
  edge_trace nodes edge = Throws (KeyError "x") \/
  edge_trace nodes edge = Throws (Builtin IndexError).
Proof.
  unfold edge_trace, py_index. destruct (nth_error nodes (fst edge)); simpl; auto.
Qed.

(** X19. [create_dependency_tree] builds a figure only for tags that are
    all whitespace, and then an empty one; as soon as one tag is not
    whitespace it raises, [KeyError] for the coordinate ['x'] that no node
    has, or [IndexError] when the head position has no node. *)
Theorem dependency_tree_needs_coordinates (tags : list POSTag) :
  if forallb is_space tags
  then create_dependency_tree tags = Returns []
  else create_dependency_tree tags = Throws (KeyError "x") \/
       create_dependency_tree tags = Throws (Builtin IndexError).
Proof.
  unfold create_dependency_tree, enumerate.
  destruct (tree_loop (enumerate_from 0 tags) [] []) as [Hall Hsome].
  rewrite forallb_enumerate_snd in Hall, Hsome.
  destruct (forallb is_space tags).
  - rewrite Hall by reflexivity. reflexivity.
  - specialize (Hsome (or_intror eq_refl)).
    destruct (fold_left tree_step (enumerate_from 0 tags) ([], []))
      as [nodes edges].
    simpl in Hsome. destruct edges as [|edge edges].
    + simpl. destruct nodes as [|node nodes]; [congruence|]. left. reflexivity.
    + cbn [each]. destruct (edge_trace_throws nodes edge) as [E|E]; rewrite E; auto.
Qed.

Example dependency_tree_of_words :
  create_dependency_tree Samples.the_quick_fox_jumps = Throws (KeyError "x").
Proof. reflexivity. Qed.

Example dependency_tree_after_spaces :
  create_dependency_tree
    [mkPOSTag " " "SPACE" "_SP" " " false true false "dep" None None;
     mkPOSTag " " "SPACE" "_SP" " " false true false "dep" None None;
     Samples.plain "Hi" "INTJ"] = Throws (Builtin IndexError).
Proof. reflexivity. Qed.

(** ** The exported data *)

Lemma get_default_append_at (V : Type) (d : PyDict.dict (list V)) (k p : string) (v : V) :
  PyDict.get_default (append_at d k v) p [] =
  PyDict.get_default d p [] ++ (if String.eqb k p then [v] else []).
Proof.
  unfold PyDict.get_default at 1. destruct (String.eqb_spec k p) as [<-|Hne].
  - rewrite get_append_at_eq. reflexivity.
  - rewrite get_append_at_ne by assumption. rewrite app_nil_r. reflexivity.
Qed.

Lemma get_default_count (d : PyDict.dict nat) (k p : string) :
  PyDict.get_default (PyDict.set d k (PyDict.get_default d k 0 + 1)) p 0 =
  PyDict.get_default d p 0 + (if String.eqb k p then 1 else 0).
Proof.
  unfold PyDict.get_default at 1. destruct (String.eqb_spec k p) as [<-|Hne].
  - rewrite PyDictFacts.get_set_eq. reflexivity.
  - rewrite PyDictFacts.get_set_ne by assumption. rewrite Nat.add_0_r. reflexivity.
Qed.

Lemma export_loop (tags : list POSTag) : forall st,
  (forall p, List.length (PyDict.get_default (VizData.s_word_lengths st) p []) =
             PyDict.get_default (VizData.s_pos_counts st) p 0) ->
  let st' := fold_left export_step tags st in
  (VizData.s_pos_counts st', VizData.s_total_words st') =
  fold_left count_tag tags (VizData.s_pos_counts st, VizData.s_total_words st) /\
  (forall p, List.length (PyDict.get_default (VizData.s_word_lengths st') p []) =
             PyDict.get_default (VizData.s_pos_counts st') p 0).
Proof.
  induction tags as [|tag tags IH]; intros st Hst; [simpl; auto|].
  cbn [fold_left]. unfold count_tag at 2.
  assert (Hstep :
    forall p, List.length (PyDict.get_default
                             (VizData.s_word_lengths (export_step st tag)) p []) =
              PyDict.get_default (VizData.s_pos_counts (export_step st tag)) p 0).
  { intros p. unfold export_step.
    destruct (negb (is_space tag) && negb (is_punct tag)); [|apply Hst].
    destruct (confidence_truthy tag); simpl;
      rewrite get_default_append_at, get_default_count, length_app, Hst;
      destruct (String.eqb (pos tag) p); reflexivity. }
  destruct (IH (export_step st tag) Hstep) as [E1 E2].
  split; [|exact E2]. rewrite E1. f_equal. unfold export_step.
  destruct (negb (is_space tag) && negb (is_punct tag)); [|reflexivity].
  destruct (confidence_truthy tag); reflexivity.
Qed.

(** X20. The exported data agree with the statistics: [pos_counts],
    [total_words] and [unique_pos_tags] are those of [get_pos_statistics],
    and [word_lengths] holds, for every category, as many lengths as the
    category counts words. *)
Theorem exported_data_agree_with_statistics (tags : list POSTag) :
  exists st,
    get_pos_statistics tags = Ok st /\
    VizData.pos_counts (export_visualization_data tags) = pos_counts st /\
    VizData.total_words (VizData.stats (export_visualization_data tags)) =
    total_words st /\
    VizData.unique_pos_tags (VizData.stats (export_visualization_data tags)) =
    unique_pos_tags st /\
    forall p,
      List.length (PyDict.get_default
                     (VizData.word_lengths (export_visualization_data tags)) p []) =
      PyDict.get_default (pos_counts st) p 0.
Proof.
  eexists. split; [apply get_pos_statistics_closed|].
  destruct (export_loop tags
              (VizData.mk_state PyDict.empty PyDict.empty PyDict.empty 0 (Q2Qc 0) 0))
    as [E1 E2]; [reflexivity|].
  simpl in E1. unfold export_visualization_data. simpl.
  rewrite <- E1. simpl. repeat split. exact E2.
Qed.

(** ** The sample database *)

Lemma sample_of_sample_dict (sample : SampleText.t) :
  sample_of_dict (sample_dict sample) = Returns sample.
Proof. destruct sample. reflexivity. Qed.

(** X21. [get_sample_by_id] answers with the first sample that has the id,
    as a dictionary whose ["id"] is the id asked for, and with [None]
    exactly when no sample has it. *)
Theorem sample_by_id_is_first_match (samples : list SampleText.t) (sample_id : string) :
  match get_sample_by_id samples sample_id with
  | Some d =>
      exists i sample,
        nth_error samples i = Some sample /\
        SampleText.id sample = sample_id /\
        (forall j other, j < i -> nth_error samples j = Some other ->
                         SampleText.id other <> sample_id) /\
        d = sample_dict sample /\
        getitem d "id" = Returns sample_id
  | None => forall sample, In sample samples -> SampleText.id sample <> sample_id
  end.
Proof.
  induction samples as [|s samples IH]; simpl.
  - intros sample [].
  - destruct (String.eqb_spec (SampleText.id s) sample_id) as [E|E].
    + exists 0, s. simpl. repeat split; auto.
      * intros j other Hj. lia.
      * unfold getitem. simpl. rewrite E. reflexivity.
    + destruct (get_sample_by_id samples sample_id) as [d|].
      * destruct IH as [i [sample [Hn [Hid [Hfirst [Hd Hg]]]]]].
        exists (S i), sample. simpl. repeat split; auto.
        intros [|j] other Hj Ho; simpl in Ho.
        -- injection Ho as <-. exact E.
        -- apply (Hfirst j other); [lia | exact Ho].
      * intros sample [<-|Hin]; [exact E | apply IH; exact Hin].
Qed.

(** X22. When the ids are pairwise distinct, every sample of the database
    is found again by its id, and the dictionary returned rebuilds it. *)
Theorem distinct_ids_find_every_sample (samples : list SampleText.t) (sample : SampleText.t) :
  NoDup (map SampleText.id samples) ->
  In sample samples ->
  get_sample_by_id samples (SampleText.id sample) = Some (sample_dict sample) /\
  sample_of_dict (sample_dict sample) = Returns sample.
Proof.
  intros Hnd Hin. split; [|apply sample_of_sample_dict].
  induction samples as [|s samples IH]; simpl in *; [contradiction|].
  inversion Hnd as [|? ? Hni Hnd']; subst.
  destruct Hin as [->|Hin].
  - rewrite String.eqb_refl. reflexivity.
  - destruct (String.eqb_spec (SampleText.id s) (SampleText.id sample)) as [E|E].
    + exfalso. apply Hni. rewrite E. apply in_map. exact Hin.
    + apply IH; assumption.
Qed.

Lemma distinct_ids_find_every_sample_witness :
  get_sample_by_id Shipped.samples "news_002" = Some (sample_dict Shipped.news_002) /\
  sample_of_dict (sample_dict Shipped.news_002) = Returns Shipped.news_002.
Proof.
  apply (@distinct_ids_find_every_sample Shipped.samples Shipped.news_002).
  - repeat constructor; simpl; intuition discriminate.
  - right. left. reflexivity.
Defined.

(** X23. Saving and loading give the samples back: the samples
    [load_from_file] builds from the ["samples"] entry that [save_to_file]
    dumps are the samples of the database, in order. *)
Theorem save_then_load (samples : list SampleText.t) :
  loaded_samples (saved_samples samples) = Returns samples.
Proof.
  unfold loaded_samples, saved_samples, get_all_samples.
  induction samples as [|s samples IH]; [reflexivity|].
  cbn [map each]. rewrite sample_of_sample_dict, IH. reflexivity.
Qed.

Lemma contains_empty (haystack : string) : contains "" haystack = true.
Proof. destruct haystack; reflexivity. Qed.

(** X24. Searching for a query whose lower-case form is empty returns every
    sample, and any search returns samples of the database in their order,
    each containing the query in its title, description or text (compared
    in lower case). *)
Theorem search_results (lower : string -> string)
  (samples : list SampleText.t) (query : string) :
  (lower query = "" -> search_samples lower samples query = get_all_samples samples) /\
  exists found,
    search_samples lower samples query = map sample_dict found /\
    found = filter (matches lower (lower query)) samples /\
    List.length found <= List.length samples /\
    forall sample, In sample found ->
      In sample samples /\
      (contains (lower query) (lower (SampleText.title sample)) = true \/
       contains (lower query) (lower (SampleText.description sample)) = true \/
       contains (lower query) (lower (SampleText.text sample)) = true).
Proof.
  split.
  - intros E. unfold search_samples, get_all_samples. rewrite E. f_equal.
    apply forallb_filter_id, forallb_forall. intros s _.
    unfold matches. rewrite contains_empty. reflexivity.
  - exists (filter (matches lower (lower query)) samples).
    split; [reflexivity|]. split; [reflexivity|].
    split; [apply filter_length_le|].
    intros sample Hin. apply filter_In in Hin. destruct Hin as [Hin Hm].
    split; [exact Hin|]. unfold matches in Hm.
    apply orb_prop in Hm. destruct Hm as [Hm|Hm]; [|auto].
    apply orb_prop in Hm. tauto.
Qed.

Lemma search_results_witness :
  search_samples Shipped.as_is Shipped.samples "" = get_all_samples Shipped.samples.
Proof.
  apply (proj1 (search_results Shipped.as_is Shipped.samples "")). reflexivity.
Defined.

(** ** The sample routes *)

Lemma keep_difficulty (difficulty : string) (l : list SampleText.t) :
  keep (fun s => and_then (getitem s "difficulty")
                   (fun d => Returns (String.eqb d difficulty)))
       (map sample_dict l) =
  Returns (map sample_dict
             (filter (fun s => String.eqb (SampleText.difficulty s) difficulty) l)).
Proof.
  induction l as [|s l IH]; [reflexivity|].
  cbn [map keep filter]. rewrite IH.
  unfold getitem at 1. simpl.
  destruct (String.eqb (SampleText.difficulty s) difficulty); reflexivity.
Qed.

(** X25. [GET /api/samples] always answers 200, never 500; [total] is the
    number of samples returned; the samples returned are samples of the
    database, in its order, and all have the difficulty asked for.  The
    filters do not combine: a search term makes the route ignore [domain]
    and [language], and a domain makes it ignore [language]. *)
Theorem samples_route
  (samples : list SampleText.t) (lower : string -> string)
  (domain language difficulty search : option string) :
  (exists chosen,
     get_samples samples lower domain language difficulty search =
     Status200 {| SamplesBody.samples := map sample_dict chosen;
                  SamplesBody.total := List.length chosen |} /\
     (exists test, chosen = filter test samples) /\
     (forall d sample, given difficulty = Some d -> In sample chosen ->
                       SampleText.difficulty sample = d)) /\
  (given search <> None ->
   get_samples samples lower domain language difficulty search =
   get_samples samples lower None None difficulty search) /\
  (given search = None -> given domain <> None ->
   get_samples samples lower domain language difficulty search =
   get_samples samples lower domain None difficulty None).
Proof.
  split; [|split].
  - unfold get_samples, search_samples, get_samples_by_domain,
      get_samples_by_language, get_all_samples.
    set (selected :=
           match given search with
           | Some q => filter (matches lower (lower q)) samples
           | None =>
               match given domain with
               | Some d => filter (fun s => String.eqb (SampleText.domain s) d) samples
               | None =>
                   match given language with
                   | Some l =>
                       filter (fun s => String.eqb (SampleText.language s) l) samples
                   | None => samples
                   end
               end
           end).
    assert (Hsel : exists test, selected = filter test samples).
    { unfold selected. destruct (given search); [eauto|].
      destruct (given domain); [eauto|]. destruct (given language); [eauto|].
      exists (fun _ => true). symmetry. apply forallb_filter_id, forallb_forall.
      reflexivity. }
    replace (match given search with
             | Some search0 => map sample_dict (filter (matches lower (lower search0)) samples)
             | None => _
             end) with (map sample_dict selected)
      by (unfold selected; destruct (given search); [reflexivity|];
          destruct (given domain); [reflexivity|];
          destruct (given language); reflexivity).
    destruct Hsel as [test Hsel].
    destruct (given difficulty) as [d|].
    + rewrite keep_difficulty. rewrite length_map.
      eexists. split; [reflexivity|]. split.
      * exists (fun s => test s && String.eqb (SampleText.difficulty s) d).
        rewrite Hsel. apply filter_filter.
      * intros d' sample [= <-] Hin. apply filter_In in Hin.
        apply String.eqb_eq. tauto.
    + rewrite length_map. exists selected. split; [reflexivity|]. split; [eauto|].
      intros d sample H. discriminate H.
  - intros Hs. unfold get_samples. destruct (given search); [reflexivity | congruence].
  - intros Hs Hd. unfold get_samples. rewrite Hs.
    destruct (given domain); [reflexivity | congruence].
Qed.

Lemma samples_route_witness :
  get_samples Shipped.samples Shipped.as_is (Some "literature") (Some "fr")
    (Some "medium") (Some "Reserve") =
  Status200 {| SamplesBody.samples := [sample_dict Shipped.news_002];
               SamplesBody.total := 1 |}.
Proof.
  rewrite (proj1 (proj2 (samples_route Shipped.samples Shipped.as_is
                           (Some "literature") (Some "fr") (Some "medium")
                           (Some "Reserve")))) by discriminate.
  reflexivity.
Defined.

Lemma sample_by_id_found (samples : list SampleText.t) (sample_id : string) d :
  get_sample_by_id samples sample_id = Some d ->
  exists sample, In sample samples /\ SampleText.id sample = sample_id /\
                 d = sample_dict sample.
Proof.
  induction samples as [|s samples IH]; simpl; [discriminate|].
  destruct (String.eqb_spec (SampleText.id s) sample_id) as [E|E].
  - intros [= <-]. exists s. auto.
  - intros H. destruct (IH H) as [sample [Hin [Hid Hd]]]. exists sample. auto.
Qed.

Lemma sample_by_id_missing (samples : list SampleText.t) (sample_id : string) :
  get_sample_by_id samples sample_id = None ->
  forall sample, In sample samples -> SampleText.id sample <> sample_id.
Proof.
  induction samples as [|s samples IH]; simpl; [intros _ sample []|].
  destruct (String.eqb_spec (SampleText.id s) sample_id) as [E|E]; [discriminate|].
  intros H sample [<-|Hin]; [exact E | apply IH; assumption].
Qed.

(** X26. [GET /api/samples/<sample_id>] answers 404 exactly when no sample
    has the id, and otherwise 200 with a dictionary whose ["id"] is the id
    asked for. *)
Theorem sample_route (samples : list SampleText.t) (sample_id : string) :
  (get_sample samples sample_id = Status404 "Sample not found" <->
   forall sample, In sample samples -> SampleText.id sample <> sample_id) /\
  (forall sample, In sample samples -> SampleText.id sample = sample_id ->
     exists d, get_sample samples sample_id = Status200 d /\
               getitem d "id" = Returns sample_id).
Proof.
  unfold get_sample.
  destruct (get_sample_by_id samples sample_id) as [d|] eqn:G.
  - destruct (@sample_by_id_found _ _ _ G) as [s [Hin [Hid Hd]]]. subst d. simpl. split.
    + split; [discriminate|]. intros Hno. exfalso. exact (Hno s Hin Hid).
    + intros sample _ _. exists (sample_dict s). split; [reflexivity|].
      unfold getitem. simpl. rewrite Hid. reflexivity.
  - pose proof (@sample_by_id_missing _ _ G) as H. split.
    + split; [intros _; exact H | reflexivity].
    + intros sample Hin Hid. exfalso. exact (H sample Hin Hid).
Qed.

Lemma sample_route_witness :
  exists d,
    get_sample Shipped.samples "lit_001" = Status200 d /\
    getitem d "id" = Returns "lit_001".
Proof.
  apply (proj2 (sample_route Shipped.samples "lit_001") Shipped.lit_001).
  - right. right. left. reflexivity.
  - reflexivity.
Defined.

(** ** The tagging routes *)

Lemma statistics_returned (tags : list POSTag) :
  exists st, get_pos_statistics tags = Ok st.
Proof. eexists. apply get_pos_statistics_closed. Qed.

Lemma switch_same_language
  (spacy_load : string -> outcome Language) (tagger : Tagger.t) (language : string) :
  language = Tagger.language tagger ->
  switch_language spacy_load tagger language = (tagger, None).
Proof. intros ->. unfold switch_language. rewrite String.eqb_refl. reflexivity. Qed.



(** X28. A request in a language other than the tagger's reloads the
    tagger.  If the load succeeds the tagger becomes what [_load_model]
    returns, labelled with the requested language or, after a fallback,
    with "en", while a 200 answer always names the requested language.  If
    the load raises, the answer is a 500 and the tagger is left with the new
    label on the old pipeline. *)
Theorem tag_route_switches_language
  (spacy_load : string -> outcome Language) (explain : string -> option string)
  (tagger : Tagger.t) (data : TagRequest.t) (text language : string) :
  TagRequest.text data = Some text ->
  match TagRequest.language data with Some l => l | None => "en" end = language ->
  language <> Tagger.language tagger ->
  let relabelled :=
    {| Tagger.language := language; Tagger.nlp := Tagger.nlp tagger |} in
  match _load_model spacy_load relabelled with
  | Returns loaded =>
      snd (api_tag_text spacy_load explain tagger (Some data)) = loaded /\
      (Tagger.language loaded = language \/ Tagger.language loaded = "en") /\
      (forall body,
         fst (api_tag_text spacy_load explain tagger (Some data)) = Status200 body ->
         TagBody.language body = language /\
         exists nlp, Tagger.nlp loaded = Some nlp /\
                     TagBody.tags body = tag_text nlp explain text true)
  | Throws e =>
      api_tag_text spacy_load explain tagger (Some data) = (Status500 e, relabelled)
  end.
Proof.
  intros Htext Hlang Hne relabelled.
  unfold api_tag_text. rewrite Htext, Hlang. unfold switch_language.
  apply String.eqb_neq in Hne. rewrite Hne. fold relabelled.
  destruct (_load_model spacy_load relabelled) as [loaded|e] eqn:L; [|reflexivity].
  assert (Hl : exists nlp, Tagger.nlp loaded = Some nlp /\
                 (Tagger.language loaded = language \/ Tagger.language loaded = "en")).
  { unfold _load_model in L.
    destruct (spacy_load _) as [nlp|e] in L.
    - injection L as <-. exists nlp. simpl. auto.
    - destruct e; try discriminate L.
      destruct (spacy_load "en_core_web_sm") as [nlp|e]; [|discriminate L].
      simpl in L. injection L as <-. exists nlp. simpl. auto. }
  destruct Hl as [nlp [Hnlp Hlab]].
  match goal with
  | |- context [match ?a with Returns _ => _ | Throws _ => _ end] =>
      destruct a as [body|e] eqn:A
  end; simpl.
  - split; [reflexivity|]. split; [exact Hlab|].
    intros body' [= <-].
    unfold tag_text_method in A. rewrite Hnlp in A. simpl in A.
    destruct (when _ _) as [statistics|] in A; [|discriminate A]. simpl in A.
    destruct (when _ _) as [phrases|] in A; [|discriminate A]. simpl in A.
    destruct (when _ _) as [structure|] in A; [|discriminate A]. simpl in A.
    injection A as <-. simpl. eauto.
  - split; [reflexivity|]. split; [exact Hlab|]. intros body' H. discriminate H.
Qed.

Lemma tag_route_switches_language_witness :
  snd (api_tag_text Installed.only_english Samples.no_explain
         (Tagger.mk "en" (Some Installed.english))
         (Some (TagRequest.mk (Some "Hallo, Welt") (Some "de") false false false))) =
  Tagger.mk "en" (Some Installed.english) /\
  forall body,
    fst (api_tag_text Installed.only_english Samples.no_explain
           (Tagger.mk "en" (Some Installed.english))
           (Some (TagRequest.mk (Some "Hallo, Welt") (Some "de") false false false))) =
    Status200 body ->
    TagBody.language body = "de".
Proof.
  pose proof (@tag_route_switches_language Installed.only_english Samples.no_explain
                (Tagger.mk "en" (Some Installed.english))
                (TagRequest.mk (Some "Hallo, Welt") (Some "de") false false false)
                "Hallo, Welt" "de" eq_refl eq_refl) as H.
  destruct H as [H1 [_ H3]]; [discriminate|].
  split; [exact H1|]. intros body Hb. apply (H3 body Hb).
Defined.

Lemma each_total (A B : Type) (f : A -> outcome B) (g : A -> B) (l : list A) :
  (forall a, In a l -> f a = Returns (g a)) -> each f l = Returns (map g l).
Proof.
  induction l as [|a l IH]; intros Hf; simpl; [reflexivity|].
  rewrite (Hf a (or_introl eq_refl)). simpl.
  rewrite IH by (intros; apply Hf; right; assumption).
  reflexivity.
Qed.

Lemma present_length (A : Type) (l : list (option A)) :
  List.length (present l) <= List.length l.
Proof.
  unfold present. induction l as [|[a|] l IH]; simpl; lia.
Qed.

(** X29. With the pipeline of the requested language loaded, [POST
    /api/batch_tag] always answers 200 and leaves the tagger as it is; it
    tags, in order, the elements that are strings or dictionaries with a
    ["text"] entry and silently skips the others, so that [total] counts
    the results, not the elements sent; each result carries statistics
    exactly when they are asked for. *)
Theorem batch_route_on_loaded_tagger
  (spacy_load : string -> outcome Language) (explain : string -> option string)
  (tagger : Tagger.t) (nlp : Language) (data : BatchRequest.t) (texts : list text_data) :
  Tagger.nlp tagger = Some nlp ->
  BatchRequest.texts data = Some texts ->
  match BatchRequest.language data with Some l => l | None => "en" end =
  Tagger.language tagger ->
  exists results,
    batch_tag spacy_load explain tagger (Some data) =
    (Status200 {| BatchBody.results := results;
                  BatchBody.total := List.length results |}, tagger) /\
    map BatchResult.text results = present (map usable texts) /\
    List.length results <= List.length texts /\
    forall r, In r results ->
      BatchResult.tags r = tag_text nlp explain (BatchResult.text r) true /\
      if BatchRequest.include_stats data
      then exists st, BatchResult.statistics r = Some st /\
                      get_pos_statistics (BatchResult.tags r) = Ok st
      else BatchResult.statistics r = None.
Proof.
  intros Hnlp Htexts Hlang.
  set (one := fun td : text_data =>
         match usable td with
         | None => None
         | Some text =>
             Some (BatchResult.mk text (tag_text nlp explain text true)
                     (if BatchRequest.include_stats data
                      then match get_pos_statistics (tag_text nlp explain text true) with
                           | Ok st => Some st
                           | Raise _ => None
                           end
                      else None))
         end).
  assert (Hone : forall td,
             batch_one explain tagger (BatchRequest.include_stats data) td =
             Returns (one td)).
  { intros td. unfold batch_one, one. destruct (usable td) as [text|]; [|reflexivity].
    unfold tag_text_method. rewrite Hnlp. simpl.
    destruct (statistics_returned (tag_text nlp explain text true)) as [st Hst].
    rewrite Hst. destruct (BatchRequest.include_stats data); reflexivity. }
  exists (present (map one texts)).
  split; [|split; [|split]].
  - unfold batch_tag. rewrite Htexts, Hlang.
    rewrite switch_same_language by reflexivity.
    rewrite (each_total _ one) by (intros; apply Hone). reflexivity.
  - unfold present, one. clear. induction texts as [|td texts IH]; [reflexivity|].
    simpl. rewrite map_app, IH. destruct (usable td); reflexivity.
  - eapply Nat.le_trans; [apply present_length|]. rewrite length_map. lia.
  - intros r Hin. unfold present in Hin. apply in_flat_map in Hin.
    destruct Hin as [o [Ho Hr]]. apply in_map_iff in Ho. destruct Ho as [td [<- _]].
    unfold one in Hr. destruct (usable td) as [text|]; [|contradiction].
    destruct Hr as [<-|[]]. simpl. split; [reflexivity|].
    destruct (statistics_returned (tag_text nlp explain text true)) as [st Hst].
    rewrite Hst. destruct (BatchRequest.include_stats data); eauto.
Qed.

Lemma batch_route_on_loaded_tagger_witness :
  exists results,
    batch_tag Installed.only_english Samples.no_explain
      (Tagger.mk "en" (Some Installed.english))
      (Some (BatchRequest.mk
               (Some [AsString "one"; AsOther; AsDict None; AsDict (Some "two")])
               None false)) =
    (Status200 {| BatchBody.results := results; BatchBody.total := 2 |},
     Tagger.mk "en" (Some Installed.english)) /\
    map BatchResult.text results = ["one"; "two"].
Proof.
  destruct (@batch_route_on_loaded_tagger Installed.only_english Samples.no_explain
              (Tagger.mk "en" (Some Installed.english)) Installed.english
              (BatchRequest.mk
                 (Some [AsString "one"; AsOther; AsDict None; AsDict (Some "two")])
                 None false)
              [AsString "one"; AsOther; AsDict None; AsDict (Some "two")]
              eq_refl eq_refl eq_refl) as [results [H [Ht _]]].
  exists results. simpl in Ht.
  assert (L : List.length results = 2)
    by (rewrite <- (length_map BatchResult.text), Ht; reflexivity).
  rewrite L in H. split; assumption.
Defined.
